(** * Bilibili content analyzer: collection, enrichment and metrics

    A shallow embedding of the data pipeline of [bilibili_analyzer]
    ([data_collector.py], [data_analyzer.py], [cli.py], [main.py],
    [config.py]) together with the properties the specification states
    about it.

    Conventions of the embedding:
    - a parsed JSON document is a [value]; a JSON object keeps its members as
      a list of pairs and is read as a Python dict through [to_dict]; JSON
      numbers are integers, as the counters, ids and timestamps of the two
      endpoints are;
    - a Python dict built by the program (an extracted record, a DataFrame
      row) is a [gmap string value];
    - code that can raise runs in [result], with the exception as a value;
      a [try]/[except] is a match on that result;
    - numeric columns of the analysis stage are exact rationals ([Qc]);
    - the network, the clock and third-party library functions are
      variables of the section that uses them. *)

From Stdlib Require Import ZArith QArith Qcanon Sorted Ascii.
From stdpp Require Import gmap strings list fin_maps numbers sorting.

Close Scope Qc_scope.
Close Scope Q_scope.

Local Set Warnings "-register-all".

(* ================================================================== *)
(** ** Python values, exceptions and dict access                       *)
(* ================================================================== *)

Module Py.

Inductive value :=
| VNone
| VBool (b : bool)
| VInt (z : Z)
| VStr (s : string)
| VList (l : list value)
| VDict (kvs : list (string * value)).

Definition value_eq_dec : forall a b : value, {a = b} + {a <> b}.
Proof.
  fix IH 1.
  decide equality.
  - apply bool_dec.
  - apply Z.eq_dec.
  - apply String.string_dec.
  - apply List.list_eq_dec. exact IH.
  - apply List.list_eq_dec. decide equality. apply String.string_dec.
Defined.

#[global] Instance value_eq_decision : EqDecision value := value_eq_dec.

Abbreviation dict := (gmap string value).

(** The exceptions the modelled code can meet. *)
Inductive exn := AttributeError | KeyError | TypeError | IndexError.

Inductive result (A : Type) :=
| Ok (a : A)
| Raise (e : exn).
Arguments Ok {A} a.
Arguments Raise {A} e.

#[global] Instance result_ret : MRet result := fun A a => Ok a.
#[global] Instance result_bind : MBind result := fun A B f m =>
  match m with
  | Ok a => f a
  | Raise e => Raise e
  end.

#[global] Instance exn_eq_decision : EqDecision exn.
Proof. solve_decision. Defined.

#[global] Instance result_eq_decision {A} `{EqDecision A} : EqDecision (result A).
Proof. solve_decision. Defined.

Definition is_ok {A} (r : result A) : bool :=
  match r with Ok _ => true | Raise _ => false end.

(** [json.loads] on an object: members are inserted left to right, so a
    repeated key keeps its last value. *)
Definition to_dict (kvs : list (string * value)) : dict :=
  foldl (fun m kv => <[kv.1 := kv.2]> m) ∅ kvs.

(** [d.get(k, dflt)] on a dict the program built. *)
Definition get (d : dict) (k : string) (dflt : value) : value :=
  default dflt (d !! k).

(** [v.get(k, dflt)] on a parsed value: only a dict has [.get]. *)
Definition vget (v : value) (k : string) (dflt : value) : result value :=
  match v with
  | VDict kvs => Ok (get (to_dict kvs) k dflt)
  | _ => Raise AttributeError
  end.

(** [d[k]] on a dict the program built. *)
Definition getitem (d : dict) (k : string) : result value :=
  match d !! k with
  | Some v => Ok v
  | None => Raise KeyError
  end.

(** Truth value of [if v:]. *)
Definition truthy (v : value) : bool :=
  match v with
  | VNone => false
  | VBool b => b
  | VInt z => negb (z =? 0)%Z
  | VStr s => negb (String.eqb s EmptyString)
  | VList l => match l with [] => false | _ => true end
  | VDict kvs => match kvs with [] => false | _ => true end
  end.

(** A value used as a number in a comparison: [bool] is a subclass of
    [int]; anything else against an [int] is a [TypeError]. *)
Definition as_int (v : value) : result Z :=
  match v with
  | VInt z => Ok z
  | VBool b => Ok (if b then 1 else 0)%Z
  | _ => Raise TypeError
  end.

(** [v == n] for an integer literal [n]. *)
Definition eq_int (v : value) (n : Z) : bool :=
  match v with
  | VInt z => (z =? n)%Z
  | VBool b => ((if b then 1 else 0) =? n)%Z
  | _ => false
  end.

(** [v == s] for a string literal [s]. *)
Definition eq_str (v : value) (s : string) : bool :=
  match v with
  | VStr t => String.eqb t s
  | _ => false
  end.

(** [s.replace(old, '')] for a non-empty [old]: every occurrence found
    scanning left to right is dropped, occurrences do not overlap. [skip]
    counts the characters of a match still to be dropped. *)
Fixpoint remove_all_from (old : string) (skip : nat) (s : string) : string :=
  match s with
  | EmptyString => EmptyString
  | String c s' =>
      match skip with
      | S k => remove_all_from old k s'
      | O =>
          if String.prefix old s
          then remove_all_from old (String.length old - 1) s'
          else String c (remove_all_from old 0 s')
      end
  end.

Definition remove_all (old s : string) : string := remove_all_from old 0 s.

(** [old in s] on strings: [old] starts at some position of [s]. *)
Fixpoint occurs (old s : string) : bool :=
  String.prefix old s
  || match s with
     | EmptyString => false
     | String _ s' => occurs old s'
     end.

(** [c in s] for one character. *)
Fixpoint has_char (c : Ascii.ascii) (s : string) : bool :=
  match s with
  | EmptyString => false
  | String c' s' => Ascii.eqb c c' || has_char c s'
  end.

(** [v.replace(old, '')]: only a [str] has [.replace]. *)
Definition vreplace (v : value) (old : string) : result value :=
  match v with
  | VStr s => Ok (VStr (remove_all old s))
  | _ => Raise AttributeError
  end.

(** [try: body except Exception: handler]. *)
Definition try_except {A} (body : result A) (handler : exn -> result A) : result A :=
  match body with
  | Ok a => Ok a
  | Raise e => handler e
  end.

(** ['k' in v]: key membership on a dict, element membership on a list,
    substring on a string; other values are not containers. *)
Definition contains (v : value) (k : string) : result bool :=
  match v with
  | VDict kvs => Ok (bool_decide (is_Some (to_dict kvs !! k)))
  | VList l => Ok (existsb (fun x => eq_str x k) l)
  | VStr s => Ok (bool_decide (is_Some (String.index 0 k s)))
  | _ => Raise TypeError
  end.

(** [v['k']]: a dict looks the key up; a list or a string refuses a
    string index; other values are not subscriptable. *)
Definition vgetitem (v : value) (k : string) : result value :=
  match v with
  | VDict kvs => getitem (to_dict kvs) k
  | _ => Raise TypeError
  end.

(** The elements [for x in v] visits: the items of a list, the keys of a
    dict, the characters of a string. *)
Definition iterate (v : value) : result (list value) :=
  match v with
  | VList l => Ok l
  | VDict kvs => Ok (VStr <$> (map_to_list (to_dict kvs)).*1)
  | VStr s => Ok ((fun c => VStr (String c EmptyString)) <$> String.list_ascii_of_string s)
  | _ => Raise TypeError
  end.

(** [v[0]]. *)
Definition index0 (v : value) : result value :=
  match v with
  | VList (x :: _) => Ok x
  | VList [] => Raise IndexError
  | VStr (String c _) => Ok (VStr (String c EmptyString))
  | VStr EmptyString => Raise IndexError
  | VDict _ => Raise KeyError
  | _ => Raise TypeError
  end.

End Py.

Import Py.

(* ================================================================== *)
(** ** [config.py]                                                     *)
(* ================================================================== *)

Module Config.

Record sentiment_threshold := {
  positive : Qc;
  negative : Qc
}.

Record analysis_config := {
  threshold : sentiment_threshold;
  min_video_duration : Z;
  max_results_per_keyword : Z;
  request_delay : Z;
  batch_size : Z
}.

Definition ANALYSIS_CONFIG : analysis_config := {|
  threshold := {| positive := Q2Qc (6 # 10); negative := Q2Qc (-1 # 10) |};
  min_video_duration := 60;
  max_results_per_keyword := 1000;
  request_delay := 1;
  batch_size := 50
|}.

Record date_range := {
  start_year : Z;
  end_year : Z;
  start_timestamp : Z;
  end_timestamp : Z
}.

Definition SEARCH_KEYWORDS : list string := [
  "执行力"; "执行力培训"; "执行力管理"; "团队执行力"; "提高执行力";
  "执行力差"; "执行力强"; "执行力不足"; "执行能力"; "执行方法";
  "高效执行"; "落地执行"; "执行思维"; "执行技巧"; "执行文化"
].

Definition DATE_RANGE : date_range := {|
  start_year := 2019;
  end_year := 2025;
  start_timestamp := 1546272000;
  end_timestamp := 1767225600
|}.

End Config.

(* ================================================================== *)
(** ** [data_collector.py]: fetch client, extraction, filter, dedup,   *)
(**    enrichment                                                      *)
(* ================================================================== *)

Module Collector.

(** What [session.get] followed by [raise_for_status] and [response.json()]
    can come to: a transport or status error, a body that is not JSON, or
    the parsed body. *)
Inductive http_response :=
| RequestException
| JSONDecodeError
| Body (data : value).

(** The [for item in result_data['result']] loop of [search_videos]: the
    item list of the first group whose [result_type] is ['video']. *)
Fixpoint first_video_group (groups : list value) : result (option value) :=
  match groups with
  | [] => Ok None
  | item :: rest =>
      t ← vget item "result_type" VNone;
      if eq_str t "video"
      then d ← vget item "data" (VList []); Ok (Some d)
      else first_video_group rest
  end.

(** [search_videos], from the response on. [{}] is the failure result,
    [{'result': items}] the success result. *)
Definition search_videos (resp : http_response) : result dict :=
  match resp with
  | RequestException => Ok ∅
  | JSONDecodeError => Ok ∅
  | Body data =>
      code ← vget data "code" VNone;
      if eq_int code 0 then
        result_data ← vget data "data" (VDict []);
        has_result ← contains result_data "result";
        if (has_result : bool) then
          groups ← vgetitem result_data "result";
          items ← iterate groups;
          found ← first_video_group items;
          match found with
          | Some d => Ok {["result" := d]}
          | None =>
              if truthy groups then
                first_result ← index0 groups;
                d ← vget first_result "data" (VList []);
                Ok {["result" := d]}
              else Ok {["result" := VList []]}
          end
        else Ok {["result" := VList []]}
      else Ok ∅
  end.

(** [get_video_info], from the response on. [{}] is the failure result. *)
Definition get_video_info (resp : http_response) : result value :=
  match resp with
  | RequestException => Ok (VDict [])
  | JSONDecodeError => Ok (VDict [])
  | Body data =>
      code ← vget data "code" VNone;
      if eq_int code 0 then vget data "data" (VDict []) else Ok (VDict [])
  end.

(** The two highlight markers [extract_video_data] removes from a title. *)
Definition dquote : string := String (Ascii.ascii_of_nat 34) EmptyString.
Definition em_open : string := "<em class=" +:+ dquote +:+ "keyword" +:+ dquote +:+ ">".
Definition em_close : string := "</em>".

Section Extraction.

(** Python's builtin [str()], applied by the code to an owner that is not a
    dict. *)
Variable py_str : value -> string.

(** The author of a raw item. *)
Definition extract_author (video_item : dict) : value :=
  match video_item !! "author" with
  | Some a => a
  | None =>
      match video_item !! "owner" with
      | Some (VDict o) => get (to_dict o) "name" (VStr EmptyString)
      | Some owner => VStr (py_str owner)
      | None => VStr EmptyString
      end
  end.

(** The body of the [try] of [extract_video_data], on an item that is a
    dict. *)
Definition extract_record (video_item : dict) : result dict :=
  title ← vreplace (get video_item "title" (VStr EmptyString)) em_open;
  title ← vreplace title em_close;
  let author := extract_author video_item in
  Ok (list_to_map [
    ("bvid", get video_item "bvid" (VStr EmptyString));
    ("aid", get video_item "aid" (VInt 0));
    ("title", title);
    ("author", author);
    ("mid", get video_item "mid" (VInt 0));
    ("description", get video_item "description" (VStr EmptyString));
    ("duration", get video_item "duration" (VStr EmptyString));
    ("pubdate", get video_item "pubdate" (VInt 0));
    ("created", get video_item "created" (VInt 0));
    ("view", get video_item "play" (VInt 0));
    ("danmaku", get video_item "video_review" (VInt 0));
    ("reply", get video_item "review" (VInt 0));
    ("favorite", get video_item "favorites" (VInt 0));
    ("coin", get video_item "coins" (VInt 0));
    ("like", get video_item "like" (VInt 0));
    ("share", get video_item "share" (VInt 0));
    ("tag", get video_item "tag" (VStr EmptyString));
    ("typeid", get video_item "typeid" (VInt 0));
    ("typename", get video_item "typename" (VStr EmptyString));
    ("pic", get video_item "pic" (VStr EmptyString));
    ("arcurl", get video_item "arcurl" (VStr EmptyString));
    ("pts", get video_item "pts" (VInt 0));
    ("arcrank", get video_item "arcrank" (VStr EmptyString));
    ("badgepay", get video_item "badgepay" (VBool false))
  ]).

(** [extract_video_data]: the body runs under [except Exception], which
    logs and returns [{}]. An item that is not a dict has no [.get]. *)
Definition extract_video_data (video_item : value) : result dict :=
  try_except
    (match video_item with
     | VDict kvs => extract_record (to_dict kvs)
     | _ => Raise AttributeError
     end)
    (fun _ => Ok ∅).

End Extraction.

(** The fields [extract_record] copies: the key of the record, the key of
    the raw item it is read from, and the default when the item lacks it. *)
Definition field_defaults : list (string * string * value) := [
  ("bvid", "bvid", VStr EmptyString);
  ("aid", "aid", VInt 0);
  ("mid", "mid", VInt 0);
  ("description", "description", VStr EmptyString);
  ("duration", "duration", VStr EmptyString);
  ("pubdate", "pubdate", VInt 0);
  ("created", "created", VInt 0);
  ("view", "play", VInt 0);
  ("danmaku", "video_review", VInt 0);
  ("reply", "review", VInt 0);
  ("favorite", "favorites", VInt 0);
  ("coin", "coins", VInt 0);
  ("like", "like", VInt 0);
  ("share", "share", VInt 0);
  ("tag", "tag", VStr EmptyString);
  ("typeid", "typeid", VInt 0);
  ("typename", "typename", VStr EmptyString);
  ("pic", "pic", VStr EmptyString);
  ("arcurl", "arcurl", VStr EmptyString);
  ("pts", "pts", VInt 0);
  ("arcrank", "arcrank", VStr EmptyString);
  ("badgepay", "badgepay", VBool false)
].

(** The raw items extraction makes a record of: dicts whose [title], when
    present, is a string. On any other item the body raises and the handler
    returns [{}]. *)
Definition extractable (video_item : value) : bool :=
  match video_item with
  | VDict kvs =>
      match to_dict kvs !! "title" with
      | None | Some (VStr _) => true
      | Some _ => false
      end
  | _ => false
  end.

(** *** The search envelope, as the interface description gives it *)

(** One typed result group: [{result_type: string, data: [item...]}], either
    member possibly absent. *)
Record spec_group := {
  group_type : option string;
  group_items : option (list value)
}.

Definition group_json (g : spec_group) : value :=
  VDict (match group_type g with Some t => [("result_type", VStr t)] | None => [] end
         ++ match group_items g with Some l => [("data", VList l)] | None => [] end).

(** [{code, message, data: {result: [group...]}}]; [groups = None] is a
    [data] object without a [result] member. *)
Definition envelope_json (code : Z) (message : string)
    (groups : option (list spec_group)) : value :=
  VDict [("code", VInt code); ("message", VStr message);
         ("data", VDict match groups with
                        | Some gs => [("result", VList (group_json <$> gs))]
                        | None => []
                        end)].

(** The items the specification asks for: those of the group tagged
    [video]; failing that those of the first group; failing that none. *)
Definition spec_search_items (groups : list spec_group) : list value :=
  match List.find (fun g => bool_decide (group_type g = Some "video")) groups with
  | Some g => default [] (group_items g)
  | None =>
      match groups with
      | g :: _ => default [] (group_items g)
      | [] => []
      end
  end.

(** The responses [search_videos] answers with the failure value. *)
Definition search_failure_cause (resp : http_response) : Prop :=
  match resp with
  | RequestException | JSONDecodeError => True
  | Body data =>
      exists kvs, data = VDict kvs /\ eq_int (get (to_dict kvs) "code" VNone) 0 = false
  end.

(** *** Date window *)

(** [timestamp = pubdate if pubdate > 0 else created]. *)
Definition effective_timestamp (video : dict) : result value :=
  let pubdate := get video "pubdate" (VInt 0) in
  let created := get video "created" (VInt 0) in
  p ← as_int pubdate;
  Ok (if (0 <? p)%Z then pubdate else created).

(** [start_timestamp <= timestamp <= end_timestamp]. *)
Definition in_window (start_timestamp end_timestamp : Z) (video : dict) : result bool :=
  timestamp ← effective_timestamp video;
  t ← as_int timestamp;
  Ok ((start_timestamp <=? t)%Z && (t <=? end_timestamp)%Z).

(** The loop of [filter_by_date], [filtered_videos] being the accumulator. *)
Fixpoint filter_by_date_loop (videos : list dict) (start_timestamp end_timestamp : Z)
    (filtered_videos : list dict) : result (list dict) :=
  match videos with
  | [] => Ok filtered_videos
  | video :: rest =>
      keep ← in_window start_timestamp end_timestamp video;
      filter_by_date_loop rest start_timestamp end_timestamp
        (if (keep : bool) then filtered_videos ++ [video] else filtered_videos)
  end.

Definition filter_by_date (videos : list dict) (start_timestamp end_timestamp : Z)
    : result (list dict) :=
  filter_by_date_loop videos start_timestamp end_timestamp [].

(** The integer held by a timestamp cell, the cell defaulting to 0. *)
Definition int_cell (video : dict) (k : string) : option Z :=
  match get video k (VInt 0) with
  | VInt z => Some z
  | _ => None
  end.

(** A record whose two timestamps, where present, are integers. *)
Definition timestamps_typed (video : dict) : Prop :=
  is_Some (int_cell video "pubdate") /\ is_Some (int_cell video "created").

(** The effective timestamp in the words of the specification: the
    publication time when positive, otherwise the creation time. *)
Definition spec_effective_timestamp (video : dict) : Z :=
  let published := default 0%Z (int_cell video "pubdate") in
  if (0 <? published)%Z then published
  else default 0%Z (int_cell video "created").

(** *** Deduplication *)

(** The cell of the [bvid] column of a row. *)
Definition row_id (row : dict) : option value := row !! "bvid".

(** [df.drop_duplicates(subset=['bvid'], keep='last')]: a row is dropped
    when a later row has the same [bvid]; the rows kept stay in order. *)
Fixpoint drop_duplicates_last (rows : list dict) : list dict :=
  match rows with
  | [] => []
  | row :: rest =>
      if existsb (fun r => bool_decide (row_id r = row_id row)) rest
      then drop_duplicates_last rest
      else row :: drop_duplicates_last rest
  end.

(** The [collected_at] stamp of a row, when it is an integer. *)
Definition collected_at (row : dict) : option Z :=
  match row !! "collected_at" with
  | Some (VInt t) => Some t
  | _ => None
  end.

(** [a] was stamped no later than [b]. *)
Definition stamp_le (a b : dict) : Prop :=
  forall ta tb, collected_at a = Some ta -> collected_at b = Some tb -> (ta <= tb)%Z.

(** The stamp of [r], when it has one, lies between [lo] and [hi]. *)
Definition stamped_within (lo hi : Z) (r : dict) : Prop :=
  forall t, collected_at r = Some t -> (lo <= t <= hi)%Z.

(** The rows collected so far are in collection order and were all stamped
    between [lo] and the present reading of the clock. *)
Definition in_order_until {World : Type} (clock : World -> Z) (lo : Z)
    (rows : list dict) (w : World) : Prop :=
  StronglySorted stamp_le rows
  /\ Forall (stamped_within lo (clock w)) rows
  /\ (lo <= clock w)%Z.

(** *** Collection loop *)

Section Collection.

Variable py_str : value -> string.

(** The outside of a collection run: a state [World], the search request
    (keyword, page), the clock read by [int(time.time())] and
    [time.sleep]. *)
Variable World : Type.
Variable http_search : string -> Z -> World -> http_response * World.
Variable time_now : World -> Z * World.
Variable sleep : Z -> World -> World.

(** The [for video_item in videos] loop of [collect_keyword_data]: every
    item extraction makes a record of is tagged with the keyword, stamped
    and appended. The flag is false when the loop was left by an
    exception. *)
Fixpoint extract_page (keyword : string) (videos : list value) (all_videos : list dict)
    (w : World) : list dict * World * bool :=
  match videos with
  | [] => (all_videos, w, true)
  | video_item :: rest =>
      match extract_video_data py_str video_item with
      | Raise _ => (all_videos, w, false)
      | Ok video_data =>
          if bool_decide (video_data <> ∅) then
            let '(t, w') := time_now w in
            let video_data := <["search_keyword" := VStr keyword]> video_data in
            let video_data := <["collected_at" := VInt t]> video_data in
            extract_page keyword rest (all_videos ++ [video_data]) w'
          else extract_page keyword rest all_videos w
      end
  end.

(** The [while page <= max_pages] loop, [pages_left] being
    [max_pages - page + 1]. Every [break], the one of the handler included,
    leaves with the records accumulated so far. *)
Fixpoint collect_pages (keyword : string) (pages_left : nat) (page : Z)
    (all_videos : list dict) (w : World) : list dict * World :=
  match pages_left with
  | O => (all_videos, w)
  | S pages_left =>
      let '(resp, w) := http_search keyword page w in
      match search_videos resp with
      | Raise _ => (all_videos, w)
      | Ok search_result =>
          if bool_decide (search_result = ∅)
             || negb (bool_decide (is_Some (search_result !! "result")))
          then (all_videos, w)
          else
            let videos := get search_result "result" (VList []) in
            if negb (truthy videos) then (all_videos, w)
            else
              match iterate videos with
              | Raise _ => (all_videos, w)
              | Ok items =>
                  let '(all_videos, w, finished) := extract_page keyword items all_videos w in
                  if negb finished then (all_videos, w)
                  else
                    let w := sleep (Config.request_delay Config.ANALYSIS_CONFIG) w in
                    if (Config.max_results_per_keyword Config.ANALYSIS_CONFIG
                        <=? Z.of_nat (length all_videos))%Z
                    then (all_videos, w)
                    else collect_pages keyword pages_left (page + 1) all_videos w
              end
      end
  end.

(** [collect_keyword_data]: the pages of one keyword, then the date
    window. *)
Definition collect_keyword_data (keyword : string) (max_pages : nat) (w : World)
    : result (list dict) * World :=
  let '(all_videos, w) := collect_pages keyword max_pages 1 [] w in
  (filter_by_date all_videos
     (Config.start_timestamp Config.DATE_RANGE)
     (Config.end_timestamp Config.DATE_RANGE), w).

(** The [for keyword in SEARCH_KEYWORDS] loop of [collect_all_data]: a
    keyword whose collection raises is passed over. The per-keyword file
    written on the way is not part of this model. *)
Fixpoint collect_keywords (keywords : list string) (all_data : list dict) (w : World)
    : list dict * World :=
  match keywords with
  | [] => (all_data, w)
  | keyword :: rest =>
      let '(r, w) := collect_keyword_data keyword 20 w in
      match r with
      | Ok keyword_data => collect_keywords rest (all_data ++ keyword_data) w
      | Raise _ => collect_keywords rest all_data w
      end
  end.

(** [collect_all_data]: the rows of the merged frame after
    [drop_duplicates]; no rows when nothing was collected. *)
Definition collect_all_data (w : World) : list dict * World :=
  let '(all_data, w) := collect_keywords Config.SEARCH_KEYWORDS [] w in
  (drop_duplicates_last all_data, w).

End Collection.

(** *** A run that records its requests *)

(** The state of a run paired with the list of search requests made so
    far, each a keyword and a page number. *)
Definition logged (World : Type) : Type := (World * list (string * Z))%type.

Definition logged_search {World : Type}
    (http_search : string -> Z -> World -> http_response * World)
    (keyword : string) (page : Z) (w : logged World) : http_response * logged World :=
  let '(resp, w') := http_search keyword page w.1 in
  (resp, (w', w.2 ++ [(keyword, page)])).

Definition logged_time_now {World : Type} (time_now : World -> Z * World)
    (w : logged World) : Z * logged World :=
  let '(t, w') := time_now w.1 in (t, (w', w.2)).

Definition logged_sleep {World : Type} (sleep : Z -> World -> World)
    (delay : Z) (w : logged World) : logged World :=
  (sleep delay w.1, w.2).

(** The requests for [n] consecutive pages of a keyword from [page] on. *)
Definition page_requests (keyword : string) (page : Z) (n : nat) : list (string * Z) :=
  (fun i => (keyword, (page + Z.of_nat i)%Z)) <$> seq 0 n.

(** A record as the collection loop appends it: tagged with the keyword,
    stamped with an integer, and holding every column of the extraction
    schema. *)
Definition collected_for (keyword : string) (r : dict) : Prop :=
  r !! "search_keyword" = Some (VStr keyword)
  /\ (exists t, r !! "collected_at" = Some (VInt t))
  /\ Forall (fun f : string * string * value => is_Some (r !! f.1.1)) field_defaults
  /\ is_Some (r !! "title") /\ is_Some (r !! "author").

(** *** Enrichment *)

(** [video_info.get(outer, {}).get(k, dflt)]; [dflt] is evaluated once the
    inner [.get] has been found. *)
Definition nested_get (video_info : value) (outer k : string) (dflt : result value)
    : result value :=
  o ← vget video_info outer (VDict []);
  match o with
  | VDict kvs => d ← dflt; Ok (get (to_dict kvs) k d)
  | _ => Raise AttributeError
  end.

(** [enhanced_row = row.to_dict(); enhanced_row.update({...})]. *)
Definition merge_detail (row : dict) (video_info : value) : result dict :=
  view ← nested_get video_info "stat" "view" (getitem row "view");
  danmaku ← nested_get video_info "stat" "danmaku" (getitem row "danmaku");
  reply ← nested_get video_info "stat" "reply" (getitem row "reply");
  favorite ← nested_get video_info "stat" "favorite" (getitem row "favorite");
  coin ← nested_get video_info "stat" "coin" (getitem row "coin");
  like ← nested_get video_info "stat" "like" (getitem row "like");
  share ← nested_get video_info "stat" "share" (getitem row "share");
  duration_seconds ← vget video_info "duration" (VInt 0);
  cid ← vget video_info "cid" (VInt 0);
  pages ← vget video_info "pages" (VInt 1);
  owner_name ← nested_get video_info "owner" "name" (getitem row "author");
  owner_mid ← nested_get video_info "owner" "mid" (getitem row "mid");
  owner_face ← nested_get video_info "owner" "face" (Ok (VStr EmptyString));
  tname ← (d ← getitem row "typename"; vget video_info "tname" d);
  copyright ← vget video_info "copyright" (VInt 0);
  desc ← (d ← getitem row "description"; vget video_info "desc" d);
  dynamic ← vget video_info "dynamic" (VStr EmptyString);
  subtitle ← vget video_info "subtitle" (VDict []);
  staff ← vget video_info "staff" (VList []);
  argue_info ← vget video_info "argue_info" (VDict []);
  honor_reply ← vget video_info "honor_reply" (VDict []);
  Ok (list_to_map [
        ("view", view); ("danmaku", danmaku); ("reply", reply);
        ("favorite", favorite); ("coin", coin); ("like", like);
        ("share", share); ("duration_seconds", duration_seconds);
        ("cid", cid); ("pages", pages); ("owner_name", owner_name);
        ("owner_mid", owner_mid); ("owner_face", owner_face);
        ("tname", tname); ("copyright", copyright); ("desc", desc);
        ("dynamic", dynamic); ("subtitle", subtitle); ("staff", staff);
        ("argue_info", argue_info); ("honor_reply", honor_reply)
      ] ∪ row).

(** The counters overwritten from the [stat] object of a detail. *)
Definition stat_counters : list string :=
  ["view"; "danmaku"; "reply"; "favorite"; "coin"; "like"; "share"].

(** The value a detail gives for a counter: member [k] of its [stat]
    object, if the detail has both. *)
Definition detail_stat (video_info : value) (k : string) : option value :=
  match video_info with
  | VDict kvs =>
      match to_dict kvs !! "stat" with
      | Some (VDict st) => to_dict st !! k
      | _ => None
      end
  | _ => None
  end.

(** The keys [merge_detail] writes. *)
Definition updated_keys : list string :=
  ["view"; "danmaku"; "reply"; "favorite"; "coin"; "like"; "share";
   "duration_seconds"; "cid"; "pages"; "owner_name"; "owner_mid"; "owner_face";
   "tname"; "copyright"; "desc"; "dynamic"; "subtitle"; "staff"; "argue_info";
   "honor_reply"].

(** The columns of a row [merge_detail] reads as fallbacks. *)
Definition fallback_columns : list string :=
  ["view"; "danmaku"; "reply"; "favorite"; "coin"; "like"; "share";
   "author"; "mid"; "typename"; "description"].

(** A detail shaped as the interface description gives it: an object whose
    [stat] and [owner] members, where present, are objects. *)
Definition well_formed_detail (video_info : value) : Prop :=
  exists kvs, video_info = VDict kvs
    /\ match to_dict kvs !! "stat" with None | Some (VDict _) => True | Some _ => False end
    /\ match to_dict kvs !! "owner" with None | Some (VDict _) => True | Some _ => False end.

(** The rows the loop of [enhance_video_data] does not skip: those whose
    [bvid] is not empty. *)
Definition has_id (row : dict) : bool :=
  match row !! "bvid" with
  | Some bvid => truthy bvid
  | None => true
  end.

(** What a kept row becomes, given the detail its request came to. *)
Definition enriched_or_unchanged (row : dict) (detail : option value) (o : dict) : Prop :=
  match detail with
  | None => o = row
  | Some video_info =>
      (merge_detail row video_info = Ok o
       /\ forall k v, k ∈ stat_counters -> detail_stat video_info k = Some v ->
            o !! k = Some v)
      \/ (is_ok (merge_detail row video_info) = false /\ o = row)
  end.

Section Enrichment.

(** The remote service: a state [World] and the detail request, which
    answers for a [bvid] and moves the state on. *)
Variable World : Type.
Variable http_detail : value -> World -> http_response * World.

(** One iteration of the loop of [enhance_video_data]: the rows it appends
    to [enhanced_data]. A row without a [bvid] column raises [KeyError] in
    the [try] and is appended as it is; a row with an empty [bvid] takes
    [continue]; any exception after the request appends the row as it is. *)
Definition enhance_row (row : dict) (w : World) : list dict * World :=
  match getitem row "bvid" with
  | Raise _ => ([row], w)
  | Ok bvid =>
      if negb (truthy bvid) then ([], w)
      else
        let '(resp, w') := http_detail bvid w in
        match get_video_info resp with
        | Raise _ => ([row], w')
        | Ok video_info =>
            if truthy video_info then
              match merge_detail row video_info with
              | Ok enhanced_row => ([enhanced_row], w')
              | Raise _ => ([row], w')
              end
            else ([row], w')
        end
  end.

(** The detail the request for a row comes to at a given state of the
    service, [None] when the call fails ([get_video_info] raises or returns
    its empty failure value) or is not made. *)
Definition detail_of (row : dict) (w : World) : option value :=
  match row !! "bvid" with
  | Some bvid =>
      match get_video_info (http_detail bvid w).1 with
      | Ok video_info => if truthy video_info then Some video_info else None
      | Raise _ => None
      end
  | None => None
  end.

(** [enhance_video_data]: the rows of [enhanced_data] after the loop. *)
Fixpoint enhance_video_data (df : list dict) (w : World) : list dict * World :=
  match df with
  | [] => ([], w)
  | row :: rest =>
      let '(out, w1) := enhance_row row w in
      let '(outs, w2) := enhance_video_data rest w1 in
      (out ++ outs, w2)
  end.

End Enrichment.

End Collector.

(* ================================================================== *)
(** ** [data_analyzer.py]: derived metrics and sentiment               *)
(* ================================================================== *)

Module Analyzer.

(** A cell of the DataFrame read from the enriched file: a number, a text
    or a missing value. *)
Inductive cell :=
| CNum (q : Qc)
| CStr (s : string)
| CNaN.

Abbreviation row := (gmap string cell).

Definition numeric_columns : list string :=
  ["view"; "danmaku"; "reply"; "favorite"; "coin"; "like"; "share"].

Section Preprocess.

(** [pd.to_numeric] on a text cell: the number it parses to, if any. *)
Variable parse_number : string -> option Qc.

(** [pd.to_numeric(c, errors='coerce')] followed by [.fillna(0)]. *)
Definition to_numeric_fillna (c : cell) : Qc :=
  match c with
  | CNum q => q
  | CStr s => default (Q2Qc 0) (parse_number s)
  | CNaN => Q2Qc 0
  end.

(** [for col in numeric_columns: if col in df.columns: df[col] = ...]. *)
Definition coerce_numeric (r : row) : row :=
  foldl (fun r col =>
           match r !! col with
           | Some c => <[col := CNum (to_numeric_fillna c)]> r
           | None => r
           end) r numeric_columns.

(** [df.get(col, 0)] used as a number. *)
Definition column_or_zero (r : row) (col : string) : result Qc :=
  match r !! col with
  | None => Ok (Q2Qc 0)
  | Some (CNum q) => Ok q
  | Some _ => Raise TypeError
  end.

(** [df[col]] used as a number. *)
Definition column (r : row) (col : string) : result Qc :=
  match r !! col with
  | None => Raise KeyError
  | Some (CNum q) => Ok q
  | Some _ => Raise TypeError
  end.

(** The number a counter column holds for a row once coerced; 0 when the
    frame has no such column. *)
Definition counter (r : row) (col : string) : Qc :=
  match r !! col with
  | Some c => to_numeric_fillna c
  | None => Q2Qc 0
  end.

(** The weighted sum assigned to [engagement_score]. *)
Definition engagement_score_of (r : row) : result Qc :=
  like ← column_or_zero r "like";
  coin ← column_or_zero r "coin";
  favorite ← column_or_zero r "favorite";
  share ← column_or_zero r "share";
  reply ← column_or_zero r "reply";
  Ok (like * Q2Qc 3 + coin * Q2Qc 5 + favorite * Q2Qc 4 + share * Q2Qc 6
      + reply * Q2Qc 2)%Qc.

(** [np.where(df.get('view', 0) > 0, score / df['view'] * 100, 0)]. Both
    branches are evaluated, so a frame without a [view] column raises. *)
Definition engagement_rate_of (r : row) (score : Qc) : result Qc :=
  guard ← column_or_zero r "view";
  view ← column r "view";
  Ok (if decide (Q2Qc 0 < guard)%Qc then (score / view * Q2Qc 100)%Qc else Q2Qc 0).

(** [_preprocess_data] on one row, for the numeric columns and the two
    derived metrics. The date step (which adds [pubdate_datetime], [year],
    [month], [quarter]) and the text step (which rewrites [title],
    [description], [author], [tag]) touch none of these columns. *)
Definition _preprocess_data (r : row) : result row :=
  let r := coerce_numeric r in
  score ← engagement_score_of r;
  let r := <["engagement_score" := CNum score]> r in
  rate ← engagement_rate_of r score;
  Ok (<["engagement_rate" := CNum rate]> r).

End Preprocess.

(** The stop words of [_load_stopwords]. *)
Definition stopwords : list string := [
  "的"; "了"; "是"; "在"; "我"; "有"; "和"; "就"; "不"; "人"; "都"; "一"; "个";
  "上"; "也"; "很"; "到"; "说"; "要"; "去"; "你"; "会"; "着"; "没有"; "看";
  "好"; "自己"; "这"; "哔哩"; "bilibili"; "B站"; "视频"; "观看"; "点赞";
  "投币"; "收藏"; "分享"; "弹幕"; "评论"; "关注"; "UP主"; "up主"; "播放";
  "更新"; "发布"; "上传"; "链接"; "地址"; "网站"; "平台"; "用户"; "内容"
].

(** The label chosen from a score by the [if]/[elif]/[else] of
    [analyze_sentiment]. *)
Definition classify (th : Config.sentiment_threshold) (sentiment_score : Qc) : string :=
  if decide (Config.positive th < sentiment_score)%Qc then "positive"
  else if decide (sentiment_score < Config.negative th)%Qc then "negative"
  else "neutral".

Record sentiment_results := {
  sentiments : list string;
  sentiment_scores : list Qc;
  positive_keywords : option (list string);
  negative_keywords : option (list string)
}.

Section Sentiment.

Variable th : Config.sentiment_threshold.

(** [str.strip()]. *)
Variable py_strip : string -> string.

(** [SnowNLP(title).sentiments]; [None] when the library raises. *)
Variable snownlp_sentiments : string -> option Qc.

(** [jieba.analyse.extract_tags(text, topK=k)]. *)
Variable extract_tags : string -> nat -> list string.

(** One iteration of the loop over the titles: the label and the score it
    appends. *)
Definition analyze_title (title : string) : string * Qc :=
  if negb (String.eqb (py_strip title) EmptyString) then
    match snownlp_sentiments title with
    | Some sentiment_score => (classify th sentiment_score, sentiment_score)
    | None => ("neutral", Q2Qc (1 # 2))
    end
  else ("neutral", Q2Qc (1 # 2)).

(** The titles whose row carries the given label. *)
Definition titles_labelled (l : string) (titles : list string) (labels : list string)
    : list string :=
  (filter (fun tl => tl.2 = l) (zip titles labels)).*1.

(** [if titles: results[key] = [kw for kw in extract_tags(' '.join(titles),
    topK=20) if kw not in stopwords]]. *)
Definition keywords_of (titles : list string) : option (list string) :=
  match titles with
  | [] => None
  | _ =>
      Some (filter (fun kw => kw ∉ stopwords)
              (extract_tags (String.concat " " titles) 20))
  end.

(** [analyze_sentiment]: the two columns it adds and the two keyword
    entries of its result. The distribution and the per-year and per-label
    aggregates are computed from the same two columns and are not part of
    this model. *)
Definition analyze_sentiment (titles : list string) : sentiment_results :=
  let analysed := analyze_title <$> titles in
  let labels := analysed.*1 in
  {| sentiments := labels;
     sentiment_scores := analysed.*2;
     positive_keywords := keywords_of (titles_labelled "positive" titles labels);
     negative_keywords := keywords_of (titles_labelled "negative" titles labels) |}.

End Sentiment.

End Analyzer.

(* ================================================================== *)
(** ** [cli.py] and the [BilibiliAnalyzer] class of [main.py]          *)
(* ================================================================== *)

Module Cli.

(** What a run does to the outside, in order. [Init] is the constructor of
    [BilibiliAnalyzer] (loggers, collector, analyzer, visualizer, storage
    directories); [Collect], [Analyze] and [Visualize] are the three phases
    with their network and file traffic. *)
Inductive event :=
| Mkdir (path : string)
| Init
| LogInfo (msg : string)
| LogError (msg : string)
| LogException
| Collect (force_recollect : bool)
| Analyze
| Visualize.

(** A computation that leaves a trace and returns or raises. *)
Record prog (A : Type) := Prog { trace : list event; outcome : result A }.
Arguments Prog {A} trace outcome.
Arguments trace {A} p.
Arguments outcome {A} p.

#[global] Instance prog_ret : MRet prog := fun A a => Prog [] (Ok a).
#[global] Instance prog_bind : MBind prog := fun A B f m =>
  match outcome m with
  | Ok a => Prog (trace m ++ trace (f a)) (outcome (f a))
  | Raise e => Prog (trace m) (Raise e)
  end.

Definition emit (e : event) : prog unit := Prog [e] (Ok ()).
Definition throw {A} (e : exn) : prog A := Prog [] (Raise e).

(** The methods the class statement of [BilibiliAnalyzer] defines. *)
Definition BilibiliAnalyzer_methods : list string := [
  "__init__"; "_setup_logger"; "_ensure_directories"; "collect_only";
  "run_data_analysis"; "run_visualization"; "_display_analysis_summary";
  "run_full_analysis"
].

(** The three phase methods, each under its own [try]/[except], taken at a
    run where the phase succeeds. *)
Definition phase_method (name : string) (force_recollect : bool) : prog bool :=
  if String.eqb name "collect_only" then emit (Collect force_recollect);; mret true
  else if String.eqb name "run_data_analysis" then emit Analyze;; mret true
  else if String.eqb name "run_visualization" then emit Visualize;; mret true
  else mret true.

(** [self.name(...)] from inside [run_full_analysis]: an attribute the class
    does not define raises [AttributeError]. *)
Definition self_call (name : string) (force_recollect : bool) : prog bool :=
  if bool_decide (name ∈ BilibiliAnalyzer_methods)
  then phase_method name force_recollect
  else throw AttributeError.

Definition run_full_analysis (force_recollect : bool) : prog bool :=
  ok ← self_call "run_data_collection" force_recollect;
  if negb ok then mret false else
  ok ← self_call "run_data_analysis" false;
  if negb ok then mret false else
  ok ← self_call "run_visualization" false;
  if negb ok then mret false else
  mret true.

(** [analyzer.name(...)] from [cli.main]. *)
Definition call (name : string) (force_recollect : bool) : prog bool :=
  if bool_decide (name ∈ BilibiliAnalyzer_methods) then
    if String.eqb name "run_full_analysis" then run_full_analysis force_recollect
    else phase_method name force_recollect
  else throw AttributeError.

(** The parsed command line. *)
Record args := {
  mode : string;
  force_recollect_flag : bool;
  config : option string;
  output_dir : string;
  verbose : bool;
  dry_run : bool
}.

(** How the process ends: [main] returns, or [sys.exit(code)]. *)
Inductive status :=
| Returns
| SysExit (code : Z).

(** The body of the [try] of [cli.main]. *)
Definition main_try (a : args) : prog unit :=
  emit (Mkdir "logs");;
  emit (Mkdir (output_dir a));;
  emit Init;;
  if dry_run a then
    emit (LogInfo "Dry run mode - checking configuration...");;
    call "validate_config" false;;
    emit (LogInfo "Configuration validation passed")
  else
    emit (LogInfo ("Starting Bilibili Content Analyzer in " +:+ mode a +:+ " mode"));;
    (if String.eqb (mode a) "collect" then call "collect_only" (force_recollect_flag a)
     else if String.eqb (mode a) "analyze" then call "analyze_only" false
     else if String.eqb (mode a) "visualize" then call "visualize_only" false
     else call "run_full_analysis" (force_recollect_flag a));;
    emit (LogInfo "Analysis completed successfully").

(** [cli.main] after argument parsing: the [except Exception] handler logs
    the failure and exits with status 1. *)
Definition main (a : args) : list event * status :=
  let p := main_try a in
  match outcome p with
  | Ok _ => (trace p, Returns)
  | Raise _ =>
      (trace p ++ [LogError "Analysis failed"]
         ++ (if verbose a then [LogException] else []),
       SysExit 1)
  end.

(** The events that start a phase. *)
Definition is_phase (e : event) : bool :=
  match e with
  | Collect _ | Analyze | Visualize => true
  | _ => false
  end.

End Cli.

(* ================================================================== *)
(** ** [main.py]: the collection phase                                 *)
(* ================================================================== *)

Module Main.

Import Collector.

Section CollectOnly.

Variable py_str : value -> string.
Variable World : Type.
Variable http_search : string -> Z -> World -> http_response * World.
Variable http_detail : value -> World -> http_response * World.
Variable time_now : World -> Z * World.
Variable sleep : Z -> World -> World.

(** [collect_only]: the value returned, the frame written as the enriched
    file ([None] when none is written) and the state the run ends in.
    [cached] tells whether the enriched file exists already. Failures of
    the file system, which the handler turns into [False], are not part of
    this model. *)
Definition collect_only (cached force_recollect : bool) (w : World)
    : bool * option (list dict) * World :=
  if cached && negb force_recollect then (true, None, w)
  else
    let '(df, w) := collect_all_data py_str World http_search time_now sleep w in
    match df with
    | [] => (false, None, w)
    | _ =>
        let '(enhanced_df, w) := enhance_video_data World http_detail df w in
        (true, Some enhanced_df, w)
    end.

End CollectOnly.

End Main.

(* ================================================================== *)
(** ** Concrete inputs used by the examples below                      *)
(* ================================================================== *)

Module Samples.

Import Collector.

(** Python's [str()] where the examples never reach it. *)
Definition no_str (v : value) : string := EmptyString.

(** A raw item carrying both author representations. *)
Definition both_authors_kvs : list (string * value) :=
  [("bvid", VStr "BV1xx411c7mD"); ("title", VStr "t");
   ("author", VStr "flat"); ("owner", VDict [("name", VStr "nested")])].

Definition both_authors_record : dict :=
  match extract_video_data no_str (VDict both_authors_kvs) with
  | Ok d => d
  | Raise _ => ∅
  end.

(** A record with the given id and timestamps. *)
Definition video (bvid : string) (pubdate created : Z) : dict :=
  list_to_map [("bvid", VStr bvid); ("pubdate", VInt pubdate); ("created", VInt created)].

(** Records on and around the bounds of the configured window; the third
    has no publication time and falls back on its creation time. *)
Definition window_videos : list dict := [
  video "BV1" 1546272000 0;
  video "BV2" 1546271999 1600000000;
  video "BV3" 0 1767225600;
  video "BV4" 1767225601 1600000000;
  video "BV5" 0 0
].

(** A collected record with the given id, title and collection stamp. *)
Definition collected (bvid title : string) (stamp : Z) : dict :=
  list_to_map [("bvid", VStr bvid); ("title", VStr title); ("collected_at", VInt stamp)].

(** Two records of one run sharing an id, around a record with another id. *)
Definition duplicate_run : list dict := [
  collected "BV1" "first" 100;
  collected "BV2" "other" 150;
  collected "BV1" "second" 200
].

(** The record extracted from a search item with the given id and view
    count. *)
Definition searched (bvid : string) (play : Z) : dict :=
  match extract_video_data no_str
          (VDict [("bvid", VStr bvid); ("title", VStr "t"); ("play", VInt play)]) with
  | Ok d => d
  | Raise _ => ∅
  end.

(** The record extracted from a search item that has no id. *)
Definition searched_without_id : dict :=
  match extract_video_data no_str (VDict [("title", VStr "t"); ("play", VInt 7)]) with
  | Ok d => d
  | Raise _ => ∅
  end.

(** A detail service without state: the request for [BV3] fails, every
    other request is answered with a view count of 999. *)
Definition detail_service (bvid : value) (w : unit) : http_response * unit :=
  if bool_decide (bvid = VStr "BV3") then (RequestException, w)
  else (Body (VDict [("code", VInt 0);
                     ("data", VDict [("stat", VDict [("view", VInt 999)])])]), w).

(** A detail as the service gives it, and the row it makes of a searched
    record. *)
Definition sample_detail : value :=
  VDict [("stat", VDict [("view", VInt 999); ("like", VInt 12)]);
         ("owner", VDict [("name", VStr "up"); ("mid", VInt 42)]);
         ("duration", VInt 300)].

Definition sample_enriched : dict :=
  match merge_detail (searched "BV1" 1) sample_detail with
  | Ok o => o
  | Raise _ => ∅
  end.

(** A detail service that is down. *)
Definition outage (bvid : value) (w : unit) : http_response * unit :=
  (RequestException, w).

Definition five_rows : list dict :=
  [searched "BV1" 1; searched "BV2" 2; searched "BV3" 3; searched "BV4" 4;
   searched "BV5" 5].

(** [pd.to_numeric] where the examples never reach it. *)
Definition no_parse (s : string) : option Qc := None.

(** A row with 100 views, 10 likes, 5 coins, 2 favorites, 1 share and 3
    comments. *)
Definition scored_row : Analyzer.row :=
  list_to_map [("view", Analyzer.CNum (Q2Qc 100)); ("like", Analyzer.CNum (Q2Qc 10));
               ("coin", Analyzer.CNum (Q2Qc 5)); ("favorite", Analyzer.CNum (Q2Qc 2));
               ("share", Analyzer.CNum (Q2Qc 1)); ("reply", Analyzer.CNum (Q2Qc 3))].

(** A sentiment library that raises on one title and scores every other
    title 0.65. *)
Definition scores_065 (title : string) : option Qc :=
  if String.eqb title "boom" then None else Some (Q2Qc (65 # 100)).

Definition no_strip (s : string) : string := s.

Definition no_tags (text : string) (k : nat) : list string := [].

Definition three_titles : list string := ["good"; EmptyString; "boom"].



(** The command line [--mode analyze]. *)
Definition analyze_args : Cli.args := {|
  Cli.mode := "analyze";
  Cli.force_recollect_flag := false;
  Cli.config := None;
  Cli.output_dir := "output";
  Cli.verbose := false;
  Cli.dry_run := false
|}.

(** The command line [--dry-run], every other option at its default. *)
Definition dry_run_args : Cli.args := {|
  Cli.mode := "full";
  Cli.force_recollect_flag := false;
  Cli.config := None;
  Cli.output_dir := "output";
  Cli.verbose := false;
  Cli.dry_run := true
|}.

(** A run whose state is its clock: every request takes one second, a
    sleep takes its delay; the first page of every keyword holds the same
    single video, later pages are empty. *)
Definition search_service (keyword : string) (page : Z) (w : Z) : http_response * Z :=
  (Body (envelope_json 0 "0"
           (Some (if (page =? 1)%Z
                  then [{| group_type := Some "video";
                           group_items :=
                             Some [VDict [("bvid", VStr "BV1"); ("title", VStr keyword);
                                          ("pubdate", VInt 1600000000)]] |}]
                  else []))),
   (w + 1)%Z).

Definition read_clock (w : Z) : Z * Z := (w, w).

Definition sleep_for (delay : Z) (w : Z) : Z := (w + Z.max 0 delay)%Z.

(** The collection of one keyword in that run. *)
Definition keyword_run : result (list dict) * Z :=
  collect_keyword_data no_str Z search_service read_clock sleep_for "执行力" 20
    1700000000%Z.

Definition keyword_rows : list dict :=
  match keyword_run.1 with
  | Ok rows => rows
  | Raise _ => []
  end.

End Samples.

(* ================================================================== *)
(** * Properties                                                       *)
(* ================================================================== *)

Import Collector.

(** ** Extraction *)

Section ExtractionFacts.

Variable py_str : value -> string.

Lemma remove_all_empty old : remove_all old EmptyString = EmptyString.
Proof. reflexivity. Qed.

(** The record built from an item whose title is absent or a string. *)
Lemma extract_record_ok (item : dict) :
  match item !! "title" with None | Some (VStr _) => True | Some _ => False end ->
  exists d, extract_record py_str item = Ok d
    /\ Forall (fun f => d !! f.1.1 = Some (get item f.1.2 f.2)) field_defaults
    /\ d !! "author" = Some (extract_author py_str item)
    /\ d !! "title" = Some (VStr (remove_all em_close (remove_all em_open
          match item !! "title" with Some (VStr s) => s | _ => EmptyString end))).
Proof.
  intros Ht. unfold extract_record, get.
  destruct (item !! "title") as [[]|] eqn:E; try done.
  - eexists; split; [reflexivity|]. split; [|split; reflexivity].
    repeat (constructor; [reflexivity|]). constructor.
  - eexists; split; [reflexivity|]. split; [|split; reflexivity].
    repeat (constructor; [reflexivity|]). constructor.
Qed.

Lemma extract_record_raises (item : dict) :
  match item !! "title" with None | Some (VStr _) => False | Some _ => True end ->
  exists e, extract_record py_str item = Raise e.
Proof.
  unfold extract_record, get.
  destruct (item !! "title") as [[]|]; try done; intros _; eexists; reflexivity.
Qed.

Lemma extractable_spec video_item :
  extractable video_item = true <->
  exists kvs, video_item = VDict kvs /\
    match to_dict kvs !! "title" with None | Some (VStr _) => True | Some _ => False end.
Proof.
  destruct video_item; simpl; try (split; [done | intros (? & ? & ?); done]).
  split.
  - intros H. eexists; split; [done|]. by destruct (to_dict kvs !! "title") as [[]|].
  - intros (k & [= <-] & H). by destruct (to_dict kvs !! "title") as [[]|].
Qed.


(** C7, as the code has it. When the raw item has a flat [author] member
    that one is the author, whether or not a nested [owner] is present (flat
    preferred); when only a nested [owner] object is present its [name] is
    the author; when neither is present the author is the empty string. *)
Theorem extract_author_flat_preferred (kvs : list (string * value)) (d : dict) :
  extract_video_data py_str (VDict kvs) = Ok d ->
  d <> ∅ ->
  (forall a, to_dict kvs !! "author" = Some a -> d !! "author" = Some a) /\
  (forall o, to_dict kvs !! "author" = None ->
     to_dict kvs !! "owner" = Some (VDict o) ->
     d !! "author" = Some (get (to_dict o) "name" (VStr EmptyString))) /\
  (to_dict kvs !! "author" = None -> to_dict kvs !! "owner" = None ->
     d !! "author" = Some (VStr EmptyString)).
Proof.
  intros Hd Hne. unfold extract_video_data in Hd.
  destruct (extractable (VDict kvs)) eqn:Hx.
  - apply extractable_spec in Hx as (k & [= <-] & Ht).
    destruct (extract_record_ok (to_dict kvs) Ht) as (d2 & Hd2 & _ & Ha & _).
    rewrite Hd2 in Hd. cbn [try_except] in Hd. injection Hd as ->.
    rewrite Ha. unfold extract_author. repeat split.
    + by intros a ->.
    + by intros o -> ->.
    + by intros -> ->.
  - destruct (extract_record_raises (to_dict kvs)) as [e He].
    + cbn [extractable] in Hx. by destruct (to_dict kvs !! "title") as [[]|].
    + rewrite He in Hd. cbn [try_except] in Hd. injection Hd as <-. done.
Qed.

End ExtractionFacts.

(** C7, as the claim states it, fails: with both representations present
    the extracted author is the flat one, not the nested owner's name. *)
Lemma extract_author_nested_not_preferred :
  exists d, extract_video_data Samples.no_str (VDict Samples.both_authors_kvs) = Ok d
    /\ d !! "author" = Some (VStr "flat")
    /\ d !! "author" <> Some (VStr "nested").
Proof.
  eexists. split; [reflexivity|]. split; [reflexivity|]. discriminate.
Qed.

Lemma extract_author_flat_preferred_witness :
  Samples.both_authors_record !! "author" = Some (VStr "flat").
Proof.
  apply (extract_author_flat_preferred Samples.no_str Samples.both_authors_kvs
           Samples.both_authors_record); [reflexivity | | reflexivity].
  intros H. apply (f_equal (fun m : dict => m !! "author")) in H. discriminate H.
Defined.

(** ** Fetch client *)

Lemma group_json_type (g : spec_group) :
  vget (group_json g) "result_type" VNone
  = Ok (match group_type g with Some t => VStr t | None => VNone end).
Proof. destruct g as [[t|] [l|]]; reflexivity. Qed.

Lemma group_json_items (g : spec_group) :
  vget (group_json g) "data" (VList []) = Ok (VList (default [] (group_items g))).
Proof. destruct g as [[t|] [l|]]; reflexivity. Qed.

Lemma first_video_group_json (gs : list spec_group) :
  first_video_group (group_json <$> gs)
  = Ok (match List.find (fun g => bool_decide (group_type g = Some "video")) gs with
        | Some g => Some (VList (default [] (group_items g)))
        | None => None
        end).
Proof.
  induction gs as [|g gs IH]; [reflexivity|].
  cbn [fmap list_fmap first_video_group List.find].
  rewrite group_json_type. cbn [mbind result_bind].
  destruct (group_type g) as [t|] eqn:Et; cbn [eq_str].
  - destruct (String.eqb_spec t "video") as [->|Hne].
    + rewrite bool_decide_eq_true_2 by done.
      rewrite group_json_items. reflexivity.
    + rewrite bool_decide_eq_false_2 by congruence. exact IH.
  - rewrite bool_decide_eq_false_2 by done. exact IH.
Qed.

Lemma find_none_nil {A} (f : A -> bool) : List.find f [] = None.
Proof. reflexivity. Qed.

Lemma envelope_code code message groups :
  vget (envelope_json code message groups) "code" VNone = Ok (VInt code).
Proof. reflexivity. Qed.

Lemma envelope_data code message groups :
  vget (envelope_json code message groups) "data" (VDict [])
  = Ok (VDict match groups with
              | Some gs => [("result", VList (group_json <$> gs))]
              | None => []
              end).
Proof. reflexivity. Qed.

(** The selection on a well-formed envelope with application code 0. *)
Lemma search_videos_selects (message : string) (groups : option (list spec_group)) :
  search_videos (Body (envelope_json 0 message groups))
  = Ok {["result" := VList (spec_search_items (default [] groups))]}.
Proof.
  unfold search_videos.
  rewrite envelope_code. cbn [mbind result_bind eq_int Z.eqb].
  rewrite envelope_data. cbn [mbind result_bind].
  destruct groups as [gs|]; [|reflexivity].
  change (contains _ "result") with (Ok true).
  cbn [mbind result_bind].
  change (vgetitem _ "result") with (Ok (VList (group_json <$> gs))).
  cbn [mbind result_bind iterate].
  rewrite first_video_group_json. cbn [mbind result_bind].
  unfold spec_search_items. change (default [] (Some gs)) with gs.
  destruct (List.find _ gs) as [g|]; [reflexivity|].
  destruct gs as [|g gs]; [reflexivity|].
  cbn [fmap list_fmap truthy index0 mbind result_bind].
  rewrite group_json_items. reflexivity.
Qed.

(** A well-formed envelope with a non-zero application code is a failure. *)
Lemma search_videos_app_error code message groups :
  code <> 0%Z -> search_videos (Body (envelope_json code message groups)) = Ok ∅.
Proof.
  intros Hc. unfold search_videos.
  rewrite envelope_code. cbn [mbind result_bind eq_int].
  by rewrite (proj2 (Z.eqb_neq code 0) Hc).
Qed.

Lemma search_videos_failure_iff (resp : http_response) (d : dict) :
  search_videos resp = Ok d -> (d = ∅ <-> search_failure_cause resp).
Proof.
  destruct resp as [| |data]; simpl.
  - intros [= <-]. done.
  - intros [= <-]. done.
  - destruct data; simpl; try discriminate.
    destruct (eq_int (get (to_dict kvs) "code" VNone) 0) eqn:Ec.
    + intros H. split.
      * intros ->. exfalso.
        unfold mbind, result_bind in H.
        repeat (case_match; simplify_eq/=).
      * intros (k & [= <-] & Hk). congruence.
    + intros [= <-]. split; [|done]. intros _. by exists kvs.
Qed.

(** C6. On a successful search response (a well-formed envelope with
    application code 0) [search_videos] returns the item list of the first
    result group tagged [video]; when no group carries the tag, the item
    list of the first group; when there are no groups, or no [result]
    member at all, the empty list and not the failure value. Whenever
    [search_videos] returns, the failure value is returned exactly for a
    transport error, a body that is not JSON, or a body whose application
    code is not 0. *)
Theorem search_videos_video_group_or_first :
  (forall message groups,
     search_videos (Body (envelope_json 0 message groups))
     = Ok {["result" := VList (spec_search_items (default [] groups))]})
  /\ (forall message,
        search_videos (Body (envelope_json 0 message (Some [])))
        = Ok {["result" := VList []]})
  /\ (forall resp d, search_videos resp = Ok d -> (d = ∅ <-> search_failure_cause resp)).
Proof.
  split; [exact search_videos_selects|]. split.
  - intros message. exact (search_videos_selects message (Some [])).
  - exact search_videos_failure_iff.
Qed.

(** ** Date window *)

Lemma in_window_typed (s e : Z) (video : dict) :
  timestamps_typed video ->
  in_window s e video
  = Ok (bool_decide (s <= spec_effective_timestamp video <= e)%Z).
Proof.
  intros [[p Hp] [c Hc]].
  unfold in_window, effective_timestamp, spec_effective_timestamp.
  unfold int_cell in *.
  destruct (get video "pubdate" (VInt 0)) as [| |p'| | |]; try discriminate.
  destruct (get video "created" (VInt 0)) as [| |c'| | |]; try discriminate.
  cbn [as_int mbind result_bind default from_option id].
  assert (Hb : forall t : Z,
             ((s <=? t)%Z && (t <=? e)%Z) = bool_decide (s <= t <= e)%Z).
  { intros t. destruct (bool_decide_reflect (s <= t <= e)%Z) as [H|H].
    - apply andb_true_iff. split; apply Z.leb_le; lia.
    - apply andb_false_iff.
      destruct (Z.leb_spec s t); [|by left].
      destruct (Z.leb_spec t e); [lia | by right]. }
  destruct (0 <? p')%Z; cbn [as_int mbind result_bind]; by rewrite Hb.
Qed.

Lemma filter_by_date_loop_spec (s e : Z) (videos acc : list dict) :
  Forall timestamps_typed videos ->
  filter_by_date_loop videos s e acc
  = Ok (acc ++ filter (fun v => (s <= spec_effective_timestamp v <= e)%Z) videos).
Proof.
  intros Ht. revert acc.
  induction Ht as [|v videos Hv _ IH]; intros acc.
  - cbn. by rewrite app_nil_r.
  - cbn [filter_by_date_loop]. rewrite (in_window_typed s e v Hv).
    cbn [mbind result_bind]. rewrite IH, filter_cons.
    destruct (decide (s <= spec_effective_timestamp v <= e)%Z) as [H|H].
    + rewrite bool_decide_eq_true_2 by done. by rewrite <- app_assoc.
    + by rewrite bool_decide_eq_false_2 by done.
Qed.

(** C4. For every list of records with integer timestamps and every window
    [start, end], [filter_by_date] returns (it does not raise), and what it
    returns is the input list restricted, in order, to the records whose
    effective timestamp (the publication time when positive, otherwise the
    creation time) lies in the window, both bounds included: a record is
    kept if and only if it is in the input and start <= timestamp <= end. *)
Theorem filter_by_date_inclusive_window (videos : list dict) (start_ts end_ts : Z) :
  Forall timestamps_typed videos ->
  exists kept,
    filter_by_date videos start_ts end_ts = Ok kept
    /\ kept = filter (fun v => (start_ts <= spec_effective_timestamp v <= end_ts)%Z) videos
    /\ forall v, v ∈ kept <->
         v ∈ videos /\ (start_ts <= spec_effective_timestamp v <= end_ts)%Z.
Proof.
  intros Ht. eexists. split; [|split; [reflexivity|]].
  - unfold filter_by_date. by rewrite filter_by_date_loop_spec.
  - intros v. rewrite list_elem_of_filter. tauto.
Qed.

Lemma filter_by_date_inclusive_window_witness :
  exists kept,
    filter_by_date Samples.window_videos 1546272000 1767225600 = Ok kept
    /\ kept = filter (fun v => (1546272000 <= spec_effective_timestamp v <= 1767225600)%Z)
                Samples.window_videos
    /\ forall v, v ∈ kept <->
         v ∈ Samples.window_videos
         /\ (1546272000 <= spec_effective_timestamp v <= 1767225600)%Z.
Proof.
  apply (filter_by_date_inclusive_window Samples.window_videos 1546272000 1767225600).
  repeat constructor; vm_compute; eauto.
Defined.

(** Both bounds are kept, their neighbours are dropped. *)
Example filter_by_date_bounds :
  filter_by_date Samples.window_videos
    (Config.start_timestamp Config.DATE_RANGE) (Config.end_timestamp Config.DATE_RANGE)
  = Ok [Samples.video "BV1" 1546272000 0; Samples.video "BV3" 0 1767225600].
Proof. vm_compute. reflexivity. Qed.

(** ** Deduplication *)

Lemma later_duplicate_spec (row : dict) (rest : list dict) :
  existsb (fun r => bool_decide (row_id r = row_id row)) rest = true
  <-> exists r, r ∈ rest /\ row_id r = row_id row.
Proof.
  rewrite existsb_exists. split.
  - intros (r & Hin & Hr). exists r. split; [by apply list_elem_of_In|].
    by apply bool_decide_eq_true in Hr.
  - intros (r & Hin & Hr). exists r. split; [by apply list_elem_of_In|].
    by apply bool_decide_eq_true.
Qed.

Lemma drop_duplicates_last_subset (rows : list dict) (s : dict) :
  s ∈ drop_duplicates_last rows -> s ∈ rows.
Proof.
  induction rows as [|row rest IH]; cbn [drop_duplicates_last]; [done|].
  destruct (existsb _ rest).
  - intros H. right. by apply IH.
  - intros [->|H]%elem_of_cons; [left | right; by apply IH].
Qed.

Lemma drop_duplicates_last_covers (rows : list dict) (r : dict) :
  r ∈ rows -> exists s, s ∈ drop_duplicates_last rows /\ row_id s = row_id r.
Proof.
  revert r. induction rows as [|row rest IH]; intros r; [by intros ?%elem_of_nil|].
  cbn [drop_duplicates_last].
  destruct (existsb _ rest) eqn:E.
  - intros [->|Hin]%elem_of_cons.
    + apply later_duplicate_spec in E as (r' & Hr' & Hid).
      destruct (IH _ Hr') as (s & Hs & Hsid). exists s. split; [done | congruence].
    + by apply IH.
  - intros [->|Hin]%elem_of_cons.
    + exists row. split; [left | done].
    + destruct (IH _ Hin) as (s & Hs & Hsid). exists s. split; [by right | done].
Qed.

Lemma drop_duplicates_last_NoDup (rows : list dict) :
  NoDup (row_id <$> drop_duplicates_last rows).
Proof.
  induction rows as [|row rest IH]; cbn [drop_duplicates_last]; [constructor|].
  destruct (existsb _ rest) eqn:E; [done|].
  cbn [fmap list_fmap]. constructor; [|done].
  intros (s & Hid & Hs)%list_elem_of_fmap.
  apply drop_duplicates_last_subset in Hs.
  assert (existsb (fun r => bool_decide (row_id r = row_id row)) rest = true) as E'.
  { apply later_duplicate_spec. by exists s. }
  congruence.
Qed.

Lemma drop_duplicates_last_is_last (rows : list dict) (s : dict) :
  s ∈ drop_duplicates_last rows ->
  exists before after,
    rows = before ++ s :: after /\ Forall (fun r => row_id r <> row_id s) after.
Proof.
  induction rows as [|row rest IH]; cbn [drop_duplicates_last];
    [by intros ?%elem_of_nil|].
  destruct (existsb _ rest) eqn:E.
  - intros (before & after & -> & Hafter)%IH.
    by exists (row :: before), after.
  - intros [->|Hs]%elem_of_cons.
    + exists [], rest. split; [done|].
      apply list.Forall_forall. intros r Hr Hid.
      assert (existsb (fun r => bool_decide (row_id r = row_id row)) rest = true) as E'.
      { apply later_duplicate_spec. by exists r. }
      congruence.
    + destruct (IH Hs) as (before & after & -> & Hafter).
      by exists (row :: before), after.
Qed.

Lemma StronglySorted_app_cons {A} (R : A -> A -> Prop) (l1 l2 : list A) (x y : A) :
  StronglySorted R (l1 ++ x :: l2) -> y ∈ l1 -> R y x.
Proof.
  induction l1 as [|a l1 IH]; cbn; [by intros _ ?%elem_of_nil|].
  intros Hs [->|Hy]%elem_of_cons.
  - apply StronglySorted_inv in Hs as [_ Hall].
    rewrite List.Forall_forall in Hall. apply Hall, in_elt.
  - apply StronglySorted_inv in Hs as [Hs _]. by apply IH.
Qed.

(** *** The order of the rows of a run *)

Lemma collected_at_stamped (t : Z) (d : dict) :
  collected_at (<["collected_at" := VInt t]> d) = Some t.
Proof. unfold collected_at. by rewrite lookup_insert_eq. Qed.

Lemma StronglySorted_filter {A} (R : A -> A -> Prop) (P : A -> Prop)
    `{forall x, Decision (P x)} (l : list A) :
  StronglySorted R l -> StronglySorted R (filter P l).
Proof.
  induction 1 as [|a l Hs IH Hall]; [constructor|].
  rewrite filter_cons. destruct (decide (P a)); [|done].
  constructor; [done|].
  apply List.Forall_forall. intros x Hx%list_elem_of_In%list_elem_of_filter.
  rewrite List.Forall_forall in Hall. apply Hall, list_elem_of_In, Hx.
Qed.

(** Whenever [filter_by_date] returns, it returns a filtering of its
    input. *)
Lemma filter_by_date_loop_filter (videos acc kept : list dict) (s e : Z) :
  filter_by_date_loop videos s e acc = Ok kept ->
  kept = acc ++ filter (fun v => in_window s e v = Ok true) videos.
Proof.
  revert acc. induction videos as [|v videos IH]; intros acc; cbn [filter_by_date_loop].
  - intros [= <-]. by rewrite app_nil_r.
  - destruct (in_window s e v) as [[|]|] eqn:E; cbn [mbind result_bind];
      [| |discriminate]; intros ->%IH; rewrite filter_cons.
    + rewrite decide_True by done. by rewrite <- app_assoc.
    + by rewrite decide_False by (rewrite E; discriminate).
Qed.

Section CollectionFacts.

Variable py_str : value -> string.
Variable World : Type.
Variable http_search : string -> Z -> World -> http_response * World.
Variable time_now : World -> Z * World.
Variable sleep : Z -> World -> World.

(** The clock of a run never goes back: [clock w] bounds from below every
    reading taken from [w] on. *)
Variable clock : World -> Z.
Hypothesis time_now_clock :
  forall w, (clock w <= (time_now w).1)%Z /\ ((time_now w).1 <= clock (time_now w).2)%Z.
Hypothesis http_search_clock :
  forall k p w, (clock w <= clock (http_search k p w).2)%Z.
Hypothesis sleep_clock : forall d w, (clock w <= clock (sleep d w))%Z.

Local Abbreviation in_order_until := (in_order_until clock).

Lemma in_order_until_later lo rows w w' :
  in_order_until lo rows w -> (clock w <= clock w')%Z -> in_order_until lo rows w'.
Proof.
  intros (Hs & Hall & Hlo) Hw. split; [done|]. split; [|lia].
  eapply List.Forall_impl; [|exact Hall].
  intros r Hr t Ht. specialize (Hr t Ht). lia.
Qed.

Lemma in_order_until_snoc lo rows w w' t d :
  in_order_until lo rows w -> (clock w <= t)%Z -> (t <= clock w')%Z ->
  in_order_until lo (rows ++ [<["collected_at" := VInt t]> d]) w'.
Proof.
  intros (Hs & Hall & Hlo) Ht Hw'. split; [|split; [|lia]].
  - apply StronglySorted_app. split; [|split; [done|]].
    + intros x1 x2 Hx1 ->%list_elem_of_singleton ta tb Ha Hb.
      rewrite collected_at_stamped in Hb. injection Hb as <-.
      rewrite list.Forall_forall in Hall. specialize (Hall x1 Hx1 ta Ha). lia.
    + repeat constructor.
  - apply Forall_app. split.
    + eapply List.Forall_impl; [|exact Hall].
      intros r Hr tr Htr. specialize (Hr tr Htr). lia.
    + constructor; [|constructor]. intros tb Hb.
      rewrite collected_at_stamped in Hb. injection Hb as <-. lia.
Qed.

Lemma extract_page_in_order lo keyword videos all_videos w all_videos' w' finished :
  extract_page py_str World time_now keyword videos all_videos w
  = (all_videos', w', finished) ->
  in_order_until lo all_videos w -> in_order_until lo all_videos' w'.
Proof.
  revert all_videos w.
  induction videos as [|item videos IH]; intros all_videos w; cbn [extract_page].
  - by intros [= <- <- <-].
  - destruct (extract_video_data py_str item) as [d|]; [|by intros [= <- <- <-]].
    destruct (bool_decide (d <> ∅)); [|apply IH].
    destruct (time_now w) as [t w1] eqn:Et.
    intros Hx Hinv. apply (IH _ _ Hx).
    pose proof (time_now_clock w) as [H1 H2]. rewrite Et in H1, H2. cbn in H1, H2.
    by apply (in_order_until_snoc lo all_videos w w1 t).
Qed.

Lemma collect_pages_in_order lo keyword pages_left page all_videos w :
  in_order_until lo all_videos w ->
  in_order_until lo
    (collect_pages py_str World http_search time_now sleep keyword pages_left page
       all_videos w).1
    (collect_pages py_str World http_search time_now sleep keyword pages_left page
       all_videos w).2.
Proof.
  revert page all_videos w.
  induction pages_left as [|n IH]; intros page all_videos w Hinv; [done|].
  cbn [collect_pages].
  pose proof (http_search_clock keyword page w) as Hsearch.
  destruct (http_search keyword page w) as [resp w1]. cbn [snd] in Hsearch.
  pose proof (in_order_until_later lo all_videos w w1 Hinv Hsearch) as Hinv1.
  destruct (search_videos resp) as [search_result|]; [|done].
  destruct (_ || _); [done|].
  destruct (negb (truthy _)); [done|].
  destruct (iterate _) as [items|]; [|done].
  destruct (extract_page py_str World time_now keyword items all_videos w1)
    as [[all_videos' w2] finished] eqn:Ex.
  pose proof (extract_page_in_order lo _ _ _ _ _ _ _ Ex Hinv1) as Hinv2.
  destruct (negb finished); [done|].
  pose proof (in_order_until_later lo all_videos' w2 _ Hinv2
                (sleep_clock (Config.request_delay Config.ANALYSIS_CONFIG) w2)) as Hinv3.
  destruct (_ <=? _)%Z; [done|]. by apply IH.
Qed.

Lemma collect_keywords_in_order lo keywords all_data w :
  in_order_until lo all_data w ->
  in_order_until lo
    (collect_keywords py_str World http_search time_now sleep keywords all_data w).1
    (collect_keywords py_str World http_search time_now sleep keywords all_data w).2.
Proof.
  revert all_data w.
  induction keywords as [|keyword rest IH]; intros all_data w Hinv; [done|].
  cbn [collect_keywords]. unfold collect_keyword_data.
  assert (in_order_until (clock w) [] w) as Hnil.
  { split; [constructor|]. split; [constructor | lia]. }
  pose proof (collect_pages_in_order (clock w) keyword 20 1 [] w Hnil) as Hpage.
  destruct (collect_pages py_str World http_search time_now sleep keyword 20 1 [] w)
    as [all_videos w1]. cbn [fst snd] in Hpage.
  destruct Hpage as (Hs1 & Hall1 & Hlo1).
  destruct (filter_by_date all_videos _ _) as [keyword_data|] eqn:Ef.
  - apply IH. apply filter_by_date_loop_filter in Ef. cbn [app] in Ef. subst keyword_data.
    destruct Hinv as (Hs & Hall & Hlo).
    assert (Hkept : Forall (stamped_within (clock w) (clock w1))
                      (filter (fun v => in_window (Config.start_timestamp Config.DATE_RANGE)
                                          (Config.end_timestamp Config.DATE_RANGE) v
                                        = Ok true) all_videos)).
    { apply list.Forall_forall. intros r [_ Hr]%list_elem_of_filter.
      rewrite list.Forall_forall in Hall1. by apply Hall1. }
    split; [|split; [|lia]].
    + apply StronglySorted_app. split; [|split; [done|by apply StronglySorted_filter]].
      intros x1 x2 Hx1 Hx2 ta tb Ha Hb.
      rewrite list.Forall_forall in Hall, Hkept.
      specialize (Hall x1 Hx1 ta Ha). specialize (Hkept x2 Hx2 tb Hb). lia.
    + apply Forall_app. split.
      * eapply List.Forall_impl; [|exact Hall].
        intros r Hr t Ht. specialize (Hr t Ht). lia.
      * eapply List.Forall_impl; [|exact Hkept].
        intros r Hr t Ht. specialize (Hr t Ht). lia.
  - apply IH. by apply (in_order_until_later lo all_data w w1).
Qed.

(** The rows accumulated by a run, before [drop_duplicates], are in
    collection order: stamps never decrease along [all_data]. *)
Lemma collect_keywords_collection_order (keywords : list string) (w : World) :
  StronglySorted stamp_le
    (collect_keywords py_str World http_search time_now sleep keywords [] w).1.
Proof.
  apply (collect_keywords_in_order (clock w) keywords [] w).
  split; [constructor|]. split; [constructor | lia].
Qed.

(** X9. A whole collection run whose clock never goes back: the merged
    frame returned by [collect_all_data] has one row per id, every id
    collected under some keyword is still present, and the row kept for an
    id carries a stamp that no other collected row of that id exceeds. *)
Lemma collect_all_data_keeps_latest (w : World) :
  let all_data :=
    (collect_keywords py_str World http_search time_now sleep
       Config.SEARCH_KEYWORDS [] w).1 in
  let final := (collect_all_data py_str World http_search time_now sleep w).1 in
  NoDup (row_id <$> final)
  /\ forall r, r ∈ all_data ->
       exists s, s ∈ final /\ row_id s = row_id r
         /\ forall ts tr, collected_at s = Some ts -> collected_at r = Some tr ->
              (tr <= ts)%Z.
Proof.
  cbn zeta. unfold collect_all_data.
  pose proof (collect_keywords_collection_order Config.SEARCH_KEYWORDS w) as Hsorted.
  destruct (collect_keywords py_str World http_search time_now sleep
              Config.SEARCH_KEYWORDS [] w) as [all_data w1].
  cbn [fst] in *. split; [apply drop_duplicates_last_NoDup|].
  intros r Hr.
  destruct (drop_duplicates_last_covers all_data r Hr) as (s & Hs & Hid).
  exists s. split; [done|]. split; [done|]. intros ts tr Hts Htr.
  destruct (drop_duplicates_last_is_last all_data s Hs) as (before & after & -> & Hafter).
  apply elem_of_app in Hr as [Hr|Hr].
  - by apply (StronglySorted_app_cons stamp_le before after s r Hsorted Hr tr ts).
  - apply elem_of_cons in Hr as [->|Hr].
    + assert (ts = tr) by congruence. lia.
    + rewrite list.Forall_forall in Hafter. by destruct (Hafter r Hr).
Qed.

End CollectionFacts.

(** C3. For every list of collected records, the rows left by
    [drop_duplicates(subset=['bvid'], keep='last')] carry pairwise distinct
    ids, every id of the input is still present, and the row kept for an id
    is its last occurrence in the input, that is the one collected last.
    When the input is in collection order (stamps never decrease along the
    list, as in one run), the row kept for an id carries the highest
    [collected_at] among the rows of that id. *)
Theorem drop_duplicates_last_unique_latest (rows : list dict) :
  let kept := drop_duplicates_last rows in
  NoDup (row_id <$> kept)
  /\ (forall r, r ∈ rows -> exists s, s ∈ kept /\ row_id s = row_id r)
  /\ (forall s, s ∈ kept ->
        exists before after,
          rows = before ++ s :: after /\ Forall (fun r => row_id r <> row_id s) after)
  /\ (StronglySorted stamp_le rows ->
      forall s r ts tr,
        s ∈ kept -> r ∈ rows -> row_id r = row_id s ->
        collected_at s = Some ts -> collected_at r = Some tr -> (tr <= ts)%Z).
Proof.
  cbn zeta. split; [apply drop_duplicates_last_NoDup|].
  split; [apply drop_duplicates_last_covers|].
  split; [apply drop_duplicates_last_is_last|].
  intros Hsorted s r ts tr Hs Hr Hid Hts Htr.
  destruct (drop_duplicates_last_is_last rows s Hs) as (before & after & -> & Hafter).
  apply elem_of_app in Hr as [Hr|Hr].
  - by apply (StronglySorted_app_cons stamp_le before after s r Hsorted Hr tr ts).
  - apply elem_of_cons in Hr as [->|Hr].
    + assert (ts = tr) by congruence. lia.
    + rewrite list.Forall_forall in Hafter. by destruct (Hafter r Hr).
Qed.

(** Two records with one id and different stamps: exactly one is left, the
    one stamped later. *)
Example drop_duplicates_last_scenario :
  drop_duplicates_last Samples.duplicate_run
  = [Samples.collected "BV2" "other" 150; Samples.collected "BV1" "second" 200].
Proof. vm_compute. reflexivity. Qed.

Lemma duplicate_run_in_order : StronglySorted stamp_le Samples.duplicate_run.
Proof.
  unfold Samples.duplicate_run.
  repeat (first [apply SSorted_nil | apply SSorted_cons | apply List.Forall_nil
                | apply List.Forall_cons]);
    intros ta tb Ha Hb; vm_compute in Ha, Hb;
    injection Ha as <-; injection Hb as <-; lia.
Qed.

Lemma drop_duplicates_last_unique_latest_witness :
  NoDup (row_id <$> drop_duplicates_last Samples.duplicate_run)
  /\ (forall s r ts tr,
        s ∈ drop_duplicates_last Samples.duplicate_run ->
        r ∈ Samples.duplicate_run -> row_id r = row_id s ->
        collected_at s = Some ts -> collected_at r = Some tr -> (tr <= ts)%Z).
Proof.
  destruct (drop_duplicates_last_unique_latest Samples.duplicate_run)
    as (Hnodup & _ & _ & Hlatest).
  split; [exact Hnodup | exact (Hlatest duplicate_run_in_order)].
Defined.

(** ** Enrichment *)

Lemma nested_get_inv (video_info : value) (outer k : string) (dflt : result value)
    (a : value) :
  nested_get video_info outer k dflt = Ok a ->
  exists kvs sub d,
    video_info = VDict kvs
    /\ get (to_dict kvs) outer (VDict []) = VDict sub
    /\ dflt = Ok d
    /\ a = get (to_dict sub) k d.
Proof.
  unfold nested_get. destruct video_info; try discriminate.
  cbn [vget mbind result_bind].
  destruct (get (to_dict kvs) outer (VDict [])) eqn:Eo; try discriminate.
  destruct dflt as [d|]; try discriminate.
  cbn [mbind result_bind]. intros [= <-]. by exists kvs, kvs0, d.
Qed.

Lemma nested_get_stat (video_info : value) (row : dict) (k : string) (a : value) :
  nested_get video_info "stat" k (getitem row k) = Ok a ->
  (forall v, detail_stat video_info k = Some v -> a = v)
  /\ (detail_stat video_info k = None -> row !! k = Some a).
Proof.
  intros (kvs & sub & d & -> & Hsub & Hd & ->)%nested_get_inv.
  unfold getitem in Hd. destruct (row !! k) as [d'|] eqn:Er; [|discriminate].
  injection Hd as ->.
  unfold detail_stat. unfold get in Hsub |- *.
  destruct (to_dict kvs !! "stat") as [st|] eqn:Es; cbn in Hsub.
  - subst st. split.
    + by intros v ->.
    + by intros ->.
  - injection Hsub as <-. split; [done|]. intros _. reflexivity.
Qed.

(** Steps through the binds of a successful [merge_detail]. *)
Ltac merge_detail_steps H :=
  unfold merge_detail in H;
  repeat match type of H with
         | mbind _ ?x = Ok _ =>
             let E := fresh "E" in
             destruct x eqn:E; cbn [mbind result_bind] in H; [|discriminate H]
         end.

(** An enriched row takes each counter from the [stat] object of the
    detail when the detail has it, and keeps the row's value otherwise. *)
Lemma merge_detail_counters (row : dict) (video_info : value) (o : dict) (k : string) :
  merge_detail row video_info = Ok o ->
  k ∈ stat_counters ->
  (forall v, detail_stat video_info k = Some v -> o !! k = Some v)
  /\ (detail_stat video_info k = None -> o !! k = row !! k).
Proof.
  intros H Hk. merge_detail_steps H. injection H as <-.
  unfold stat_counters in Hk.
  repeat (apply elem_of_cons in Hk as [->|Hk]);
    [| | | | | | | by apply elem_of_nil in Hk].
  all: match goal with
       | E : nested_get _ "stat" ?c _ = Ok ?a
         |- context [_ !! ?c] =>
           apply nested_get_stat in E as [Ev En]; split;
           [ intros v Hv; rewrite (Ev v Hv)
           | intros Hn; rewrite (En Hn) ];
           apply lookup_union_Some_l; reflexivity
       end.
Qed.

Lemma nested_get_ok (kvs : list (string * value)) (outer k : string) (d : value) :
  match to_dict kvs !! outer with None | Some (VDict _) => True | Some _ => False end ->
  exists a, nested_get (VDict kvs) outer k (Ok d) = Ok a.
Proof.
  intros H. unfold nested_get, vget, get. cbn [mbind result_bind].
  destruct (to_dict kvs !! outer) as [[]|]; try done; cbn; eauto.
Qed.

(** On a well-formed detail, and a row that has the columns read as
    fallbacks, the merge does not raise. *)
Lemma merge_detail_ok (row : dict) (video_info : value) :
  Forall (fun c => is_Some (row !! c)) fallback_columns ->
  well_formed_detail video_info ->
  exists o, merge_detail row video_info = Ok o.
Proof.
  intros Hcols (kvs & -> & Hstat & Howner).
  assert (Hget : forall c, c ∈ fallback_columns -> exists v, getitem row c = Ok v).
  { intros c Hc. rewrite list.Forall_forall in Hcols.
    destruct (Hcols c Hc) as [v Hv]. exists v. unfold getitem. by rewrite Hv. }
  unfold merge_detail.
  repeat match goal with
         | |- context [getitem row ?c] =>
             let v := fresh "v" in let E := fresh "E" in
             destruct (Hget c) as [v E];
             [unfold fallback_columns; repeat constructor | rewrite E]
         end.
  repeat match goal with
         | |- context [nested_get (VDict kvs) "stat" ?k (Ok ?d)] =>
             let a := fresh "a" in let E := fresh "E" in
             destruct (nested_get_ok kvs "stat" k d Hstat) as [a E]; rewrite E;
             cbn [mbind result_bind]
         | |- context [nested_get (VDict kvs) "owner" ?k (Ok ?d)] =>
             let a := fresh "a" in let E := fresh "E" in
             destruct (nested_get_ok kvs "owner" k d Howner) as [a E]; rewrite E;
             cbn [mbind result_bind]
         | |- context [vget (VDict kvs) ?k ?d] =>
             change (vget (VDict kvs) k d) with (Ok (get (to_dict kvs) k d));
             cbn [mbind result_bind]
         end.
  eauto.
Qed.

Section EnrichmentFacts.

Variable World : Type.
Variable http_detail : value -> World -> http_response * World.

Lemma enhance_row_skips (row : dict) (w : World) :
  has_id row = false -> (enhance_row World http_detail row w).1 = [].
Proof.
  unfold has_id, enhance_row, getitem.
  destruct (row !! "bvid") as [bvid|]; [|discriminate].
  by intros ->.
Qed.

Lemma enhance_row_keeps (row : dict) (w : World) :
  has_id row = true ->
  exists o, (enhance_row World http_detail row w).1 = [o]
    /\ enriched_or_unchanged row (detail_of World http_detail row w) o.
Proof.
  unfold has_id, enhance_row, detail_of, getitem.
  destruct (row !! "bvid") as [bvid|]; [|exists row; split; [reflexivity | cbn; reflexivity]].
  intros ->. cbn [negb].
  destruct (http_detail bvid w) as [resp w']. cbn [fst].
  destruct (get_video_info resp) as [video_info|]; [|exists row; split; [reflexivity | cbn; reflexivity]].
  destruct (truthy video_info); [|exists row; split; [reflexivity | cbn; reflexivity]].
  destruct (merge_detail row video_info) as [o|] eqn:Em.
  - exists o. split; [done|]. left. split; [done|].
    intros k v Hk Hv. by apply (merge_detail_counters row video_info o k Em Hk).
  - exists row. split; [done|]. right. split; [|done]. by rewrite Em.
Qed.

(** The loop goes on after every row: the output on a list of rows is the
    output on its first part followed by the output on the rest. *)
Lemma enhance_video_data_app (rows1 rows2 : list dict) (w : World) :
  (enhance_video_data World http_detail (rows1 ++ rows2) w).1
  = (enhance_video_data World http_detail rows1 w).1
    ++ (enhance_video_data World http_detail rows2
          (enhance_video_data World http_detail rows1 w).2).1.
Proof.
  revert w. induction rows1 as [|row rows1 IH]; intros w; [reflexivity|].
  cbn [app enhance_video_data].
  destruct (enhance_row World http_detail row w) as [out w1].
  specialize (IH w1).
  destruct (enhance_video_data World http_detail (rows1 ++ rows2) w1) as [o12 w12].
  destruct (enhance_video_data World http_detail rows1 w1) as [o1 w2].
  cbn [fst snd] in *. rewrite IH. by rewrite app_assoc.
Qed.

(** C5, as the code has it. For every input record set and every behaviour
    of the detail service, the enrichment loop runs to the end and its
    output is, in order, one record for every input record whose id is not
    empty (a record with an empty id is skipped without a request): each
    output record is its input record unchanged when the detail call for it
    failed, and otherwise its input record merged with the detail, every
    counter the detail gives carrying the detail's value; when the merge
    itself raises, the input record is kept unchanged. *)
Theorem enhance_video_data_keeps_identified_rows (rows : list dict) (w : World) :
  Forall2
    (fun row o => exists w0,
       enriched_or_unchanged row (detail_of World http_detail row w0) o)
    (filter (fun r => has_id r = true) rows)
    (enhance_video_data World http_detail rows w).1.
Proof.
  revert w. induction rows as [|row rows IH]; intros w; [constructor|].
  cbn [enhance_video_data]. rewrite filter_cons.
  specialize (IH (enhance_row World http_detail row w).2).
  destruct (has_id row) eqn:Hid.
  - destruct (enhance_row_keeps row w Hid) as (o & Ho & Hspec).
    destruct (enhance_row World http_detail row w) as [out w1].
    cbn [fst snd] in *. subst out.
    destruct (enhance_video_data World http_detail rows w1) as [outs w2].
    cbn [fst] in *. rewrite decide_True by done.
    constructor; [by exists w | done].
  - pose proof (enhance_row_skips row w Hid) as Ho.
    destruct (enhance_row World http_detail row w) as [out w1].
    cbn [fst snd] in *. subst out.
    destruct (enhance_video_data World http_detail rows w1) as [outs w2].
    cbn [fst] in *. by rewrite decide_False by done.
Qed.

End EnrichmentFacts.

(** One failing detail call among five records: five records come out, the
    third unchanged, the other four with the view count of the detail. *)
Example enhance_video_data_one_failure :
  let out := (enhance_video_data unit Samples.detail_service Samples.five_rows ()).1 in
  length out = 5
  /\ out !! 2 = Some (Samples.searched "BV3" 3)
  /\ (fun o : dict => o !! "view") <$> out
     = [Some (VInt 999); Some (VInt 999); Some (VInt 3); Some (VInt 999);
        Some (VInt 999)]
  /\ row_id <$> out = row_id <$> Samples.five_rows.
Proof. vm_compute. repeat split; reflexivity. Qed.

(** C5, as the claim states it, fails: a record with an empty id is in the
    input and not in the output, although the loop ran to the end and kept
    the record whose detail call failed. *)
Lemma enhance_video_data_drops_empty_id :
  let rows := [Samples.searched_without_id; Samples.searched "BV3" 3] in
  let out := (enhance_video_data unit Samples.detail_service rows ()).1 in
  row_id Samples.searched_without_id = Some (VStr EmptyString)
  /\ Samples.searched_without_id ∈ rows
  /\ out = [Samples.searched "BV3" 3]
  /\ Samples.searched_without_id ∉ out.
Proof.
  cbn zeta. split; [reflexivity|]. split; [left|].
  assert ((enhance_video_data unit Samples.detail_service
             [Samples.searched_without_id; Samples.searched "BV3" 3] ()).1
          = [Samples.searched "BV3" 3]) as -> by (vm_compute; reflexivity).
  split; [reflexivity|].
  intros [H|H%elem_of_nil]%elem_of_cons; [|done].
  apply (f_equal row_id) in H. vm_compute in H. discriminate H.
Qed.

(** ** Derived metrics *)

Import Analyzer.

Section PreprocessFacts.

Variable parse_number : string -> option Qc.

Lemma coerce_step_lookup (r : row) (c col : string) :
  (match r !! c with
   | Some x => <[c := CNum (to_numeric_fillna parse_number x)]> r
   | None => r
   end) !! col
  = if decide (c = col)
    then (fun x => CNum (to_numeric_fillna parse_number x)) <$> r !! col
    else r !! col.
Proof.
  destruct (decide (c = col)) as [->|Hne].
  - destruct (r !! col) as [x|] eqn:E; cbn.
    + by rewrite lookup_insert_eq.
    + by rewrite E.
  - destruct (r !! c) as [x|]; [by rewrite lookup_insert_ne|done].
Qed.

Lemma coerce_columns_lookup (cols : list string) (r : row) (col : string) :
  foldl (fun r c =>
           match r !! c with
           | Some x => <[c := CNum (to_numeric_fillna parse_number x)]> r
           | None => r
           end) r cols !! col
  = if bool_decide (col ∈ cols)
    then (fun x => CNum (to_numeric_fillna parse_number x)) <$> r !! col
    else r !! col.
Proof.
  revert r. induction cols as [|c cols IH]; intros r; [done|].
  cbn [foldl]. rewrite IH, coerce_step_lookup.
  destruct (decide (c = col)) as [->|Hne].
  - rewrite (bool_decide_eq_true_2 (col ∈ col :: cols)) by left.
    destruct (bool_decide (col ∈ cols)); [|done].
    by destruct (r !! col).
  - destruct (bool_decide_reflect (col ∈ cols)) as [Hin|Hin].
    + by rewrite bool_decide_eq_true_2 by by right.
    + rewrite bool_decide_eq_false_2; [done|].
      intros [?|?]%elem_of_cons; congruence.
Qed.

Lemma coerce_numeric_lookup (r : row) (col : string) :
  col ∈ numeric_columns ->
  coerce_numeric parse_number r !! col
  = (fun x => CNum (to_numeric_fillna parse_number x)) <$> r !! col.
Proof.
  intros Hin. unfold coerce_numeric. rewrite coerce_columns_lookup.
  by rewrite bool_decide_eq_true_2.
Qed.

Lemma column_or_zero_coerced (r : row) (col : string) :
  col ∈ numeric_columns ->
  column_or_zero (coerce_numeric parse_number r) col = Ok (counter parse_number r col).
Proof.
  intros Hin. unfold column_or_zero, counter.
  rewrite coerce_numeric_lookup by done. by destruct (r !! col).
Qed.

Lemma engagement_score_coerced (r : row) :
  engagement_score_of (coerce_numeric parse_number r)
  = Ok (counter parse_number r "like" * Q2Qc 3
        + counter parse_number r "coin" * Q2Qc 5
        + counter parse_number r "favorite" * Q2Qc 4
        + counter parse_number r "share" * Q2Qc 6
        + counter parse_number r "reply" * Q2Qc 2)%Qc.
Proof.
  unfold engagement_score_of.
  rewrite !column_or_zero_coerced; [reflexivity|..];
    unfold numeric_columns; repeat constructor.
Qed.

(** What [_preprocess_data] computes on a frame that has a [view] column,
    whatever the sign of the view count. *)
Lemma preprocess_data_metrics (r : row) :
  is_Some (r !! "view") ->
  let n := counter parse_number r in
  let score := (n "like" * Q2Qc 3 + n "coin" * Q2Qc 5 + n "favorite" * Q2Qc 4
                + n "share" * Q2Qc 6 + n "reply" * Q2Qc 2)%Qc in
  exists r', _preprocess_data parse_number r = Ok r'
    /\ r' !! "engagement_score" = Some (CNum score)
    /\ r' !! "engagement_rate"
       = Some (CNum (if decide (Q2Qc 0 < n "view")%Qc
                     then (score / n "view" * Q2Qc 100)%Qc else Q2Qc 0)).
Proof.
  intros [c Hc] n score. unfold _preprocess_data.
  rewrite engagement_score_coerced. cbn [mbind result_bind]. fold n. fold score.
  unfold engagement_rate_of, column_or_zero, column.
  rewrite lookup_insert_ne by done.
  rewrite coerce_numeric_lookup by (unfold numeric_columns; repeat constructor).
  rewrite Hc. cbn [fmap option_fmap option_map mbind result_bind].
  eexists. split; [reflexivity|]. split.
  - rewrite lookup_insert_ne by done. by rewrite lookup_insert_eq.
  - rewrite lookup_insert_eq. unfold n, counter. by rewrite Hc.
Qed.

(** C1. For every record of a frame with a view column and a non-negative
    view count, [_preprocess_data] returns with
    engagement_score = like*3 + coin*5 + favorite*4 + share*6 + reply*2 over
    the coerced counters, and engagement_rate = 0 when the view count is 0,
    engagement_score / view * 100 otherwise (exact rational arithmetic). *)
Theorem preprocess_data_engagement (r : row) :
  is_Some (r !! "view") ->
  (Q2Qc 0 <= counter parse_number r "view")%Qc ->
  let n := counter parse_number r in
  let score := (n "like" * Q2Qc 3 + n "coin" * Q2Qc 5 + n "favorite" * Q2Qc 4
                + n "share" * Q2Qc 6 + n "reply" * Q2Qc 2)%Qc in
  exists r', _preprocess_data parse_number r = Ok r'
    /\ r' !! "engagement_score" = Some (CNum score)
    /\ r' !! "engagement_rate"
       = Some (CNum (if decide (n "view" = Q2Qc 0)
                     then Q2Qc 0 else (score / n "view" * Q2Qc 100)%Qc)).
Proof.
  intros Hv Hnn n score.
  destruct (preprocess_data_metrics r Hv) as (r' & Hr' & Hs & Hrate).
  exists r'. split; [done|]. split; [done|].
  rewrite Hrate. fold n. fold score. f_equal. f_equal.
  destruct (decide (Q2Qc 0 < n "view")%Qc) as [Hpos|Hnpos];
    destruct (decide (n "view" = Q2Qc 0)) as [Hz|Hnz]; try done.
  - rewrite Hz in Hpos. by apply (Qcle_not_lt _ _ (Qcle_refl (Q2Qc 0))) in Hpos.
  - exfalso. apply Hnpos. apply Qcle_lt_or_eq in Hnn as [?|Heq]; [done|].
    destruct Hnz. symmetry. exact Heq.
Qed.

End PreprocessFacts.

(** The worked example of the specification: 100 views, 10 likes, 5 coins,
    2 favorites, 1 share, 3 comments give a score of 75 and a rate of 75. *)
Example preprocess_data_scenario :
  exists r', _preprocess_data Samples.no_parse Samples.scored_row = Ok r'
    /\ r' !! "engagement_score" = Some (CNum (Q2Qc 75))
    /\ r' !! "engagement_rate" = Some (CNum (Q2Qc 75)).
Proof.
  assert (Hv : is_Some (Samples.scored_row !! "view")) by (by eexists).
  destruct (preprocess_data_metrics Samples.no_parse Samples.scored_row Hv)
    as (r' & Hr' & Hs & Hrate).
  exists r'. split; [done|]. split.
  - rewrite Hs. do 2 f_equal; try (apply Qc_is_canon; reflexivity).
  - rewrite Hrate. do 2 f_equal; try (apply Qc_is_canon; reflexivity).
Qed.

Lemma preprocess_data_engagement_witness :
  exists r', _preprocess_data Samples.no_parse Samples.scored_row = Ok r'
    /\ r' !! "engagement_score"
       = Some (CNum (counter Samples.no_parse Samples.scored_row "like" * Q2Qc 3
                     + counter Samples.no_parse Samples.scored_row "coin" * Q2Qc 5
                     + counter Samples.no_parse Samples.scored_row "favorite" * Q2Qc 4
                     + counter Samples.no_parse Samples.scored_row "share" * Q2Qc 6
                     + counter Samples.no_parse Samples.scored_row "reply" * Q2Qc 2)%Qc)
    /\ r' !! "engagement_rate"
       = Some (CNum (if decide (counter Samples.no_parse Samples.scored_row "view" = Q2Qc 0)
                     then Q2Qc 0
                     else ((counter Samples.no_parse Samples.scored_row "like" * Q2Qc 3
                            + counter Samples.no_parse Samples.scored_row "coin" * Q2Qc 5
                            + counter Samples.no_parse Samples.scored_row "favorite" * Q2Qc 4
                            + counter Samples.no_parse Samples.scored_row "share" * Q2Qc 6
                            + counter Samples.no_parse Samples.scored_row "reply" * Q2Qc 2)
                           / counter Samples.no_parse Samples.scored_row "view"
                           * Q2Qc 100)%Qc)).
Proof.
  apply (preprocess_data_engagement Samples.no_parse Samples.scored_row).
  - by eexists.
  - vm_compute. discriminate.
Defined.

(** ** Sentiment *)

Lemma classify_cases (th : Config.sentiment_threshold) (s : Qc) :
  (Config.negative th <= Config.positive th)%Qc ->
  ((Config.positive th < s)%Qc -> classify th s = "positive")
  /\ ((s < Config.negative th)%Qc -> classify th s = "negative")
  /\ ((Config.negative th <= s)%Qc -> (s <= Config.positive th)%Qc ->
      classify th s = "neutral").
Proof.
  intros Hth. unfold classify. repeat split.
  - intros H. by rewrite decide_True.
  - intros H. rewrite decide_False, decide_True; [done..|].
    apply Qcle_not_lt. apply Qclt_le_weak.
    by apply (Qclt_le_trans _ _ _ H).
  - intros Hn Hp. rewrite decide_False, decide_False; [done|..];
      by apply Qcle_not_lt.
Qed.

(** The thresholds of the shipped configuration. *)
Lemma shipped_thresholds_ordered :
  (Config.negative (Config.threshold Config.ANALYSIS_CONFIG)
   <= Q2Qc (1 # 2))%Qc
  /\ (Q2Qc (1 # 2)
      <= Config.positive (Config.threshold Config.ANALYSIS_CONFIG))%Qc.
Proof. split; vm_compute; discriminate. Qed.

Section SentimentFacts.

Variable py_strip : string -> string.
Variable snownlp_sentiments : string -> option Qc.
Variable extract_tags : string -> nat -> list string.

(** With the fallback score between the two thresholds, the label of every
    title is the classification of its score. *)
Lemma analyze_title_label (th : Config.sentiment_threshold) (title : string) :
  (Config.negative th <= Q2Qc (1 # 2))%Qc ->
  (Q2Qc (1 # 2) <= Config.positive th)%Qc ->
  (analyze_title th py_strip snownlp_sentiments title).1
  = classify th (analyze_title th py_strip snownlp_sentiments title).2.
Proof.
  intros Hn Hp.
  assert (classify th (Q2Qc (1 # 2)) = "neutral") as Hhalf.
  { apply classify_cases; [|done..]. by apply (Qcle_trans _ (Q2Qc (1 # 2))). }
  unfold analyze_title.
  destruct (negb _); [|by cbn [fst snd]; rewrite Hhalf].
  destruct (snownlp_sentiments title); [done | by cbn [fst snd]; rewrite Hhalf].
Qed.

(** C2. For every score and every pair of thresholds with the negative
    cutoff not above the positive one, the label is decided by strict
    comparisons: positive exactly when the score is strictly above the
    positive cutoff, negative exactly when it is strictly below the
    negative cutoff, neutral in every other case, in particular at a score
    equal to either threshold. Under the shipped thresholds the label
    stored for a title is this function of the score stored for it. *)
Theorem classify_strict_thresholds (th : Config.sentiment_threshold) (s : Qc) :
  (Config.negative th <= Config.positive th)%Qc ->
  (classify th s = "positive" <-> (Config.positive th < s)%Qc)
  /\ (classify th s = "negative" <-> (s < Config.negative th)%Qc)
  /\ (classify th s = "neutral"
      <-> (Config.negative th <= s)%Qc /\ (s <= Config.positive th)%Qc)
  /\ classify th (Config.positive th) = "neutral"
  /\ classify th (Config.negative th) = "neutral"
  /\ (forall title,
        let th0 := Config.threshold Config.ANALYSIS_CONFIG in
        (analyze_title th0 py_strip snownlp_sentiments title).1
        = classify th0 (analyze_title th0 py_strip snownlp_sentiments title).2).
Proof.
  intros Hth.
  destruct (classify_cases th s Hth) as (Hpos & Hneg & Hneu).
  assert (Hlabel : forall x,
            (Config.positive th < x)%Qc
            \/ (x < Config.negative th)%Qc
            \/ ((Config.negative th <= x)%Qc /\ (x <= Config.positive th)%Qc)).
  { intros x. destruct (Qclt_le_dec (Config.positive th) x) as [?|?]; [by left|].
    destruct (Qclt_le_dec x (Config.negative th)) as [?|?]; [by right; left|].
    by right; right. }
  split; [|split; [|split; [|split; [|split]]]].
  - split; [|exact Hpos].
    intros Hc. destruct (Hlabel s) as [H|[H|[H1 H2]]]; [done|..].
    + rewrite (Hneg H) in Hc. discriminate.
    + rewrite (Hneu H1 H2) in Hc. discriminate.
  - split; [|exact Hneg].
    intros Hc. destruct (Hlabel s) as [H|[H|[H1 H2]]]; [|done|].
    + rewrite (Hpos H) in Hc. discriminate.
    + rewrite (Hneu H1 H2) in Hc. discriminate.
  - split; [|intros [H1 H2]; by apply Hneu].
    intros Hc. destruct (Hlabel s) as [H|[H|[H1 H2]]]; [| |done].
    + rewrite (Hpos H) in Hc. discriminate.
    + rewrite (Hneg H) in Hc. discriminate.
  - apply (classify_cases th (Config.positive th) Hth); [done | apply Qcle_refl].
  - apply (classify_cases th (Config.negative th) Hth); [apply Qcle_refl | done].
  - intros title th0.
    apply analyze_title_label; apply shipped_thresholds_ordered.
Qed.

End SentimentFacts.

Lemma classify_strict_thresholds_witness :
  classify (Config.threshold Config.ANALYSIS_CONFIG) (Q2Qc (65 # 100)) = "positive"
  <-> (Config.positive (Config.threshold Config.ANALYSIS_CONFIG) < Q2Qc (65 # 100))%Qc.
Proof.
  refine (proj1 (classify_strict_thresholds Samples.no_strip Samples.scores_065
                   (Config.threshold Config.ANALYSIS_CONFIG) (Q2Qc (65 # 100)) _)).
  vm_compute. discriminate.
Defined.

(** A score of 0.65 under the shipped thresholds is positive; the two
    thresholds themselves are neutral. *)
Example classify_shipped_scenario :
  classify (Config.threshold Config.ANALYSIS_CONFIG) (Q2Qc (65 # 100)) = "positive"
  /\ classify (Config.threshold Config.ANALYSIS_CONFIG) (Q2Qc (6 # 10)) = "neutral"
  /\ classify (Config.threshold Config.ANALYSIS_CONFIG) (Q2Qc (-1 # 10)) = "neutral"
  /\ classify (Config.threshold Config.ANALYSIS_CONFIG) (Q2Qc (-2 # 10)) = "negative".
Proof. repeat split; vm_compute; reflexivity. Qed.

Section NoNegativeLabel.

Variable py_strip : string -> string.
Variable snownlp_sentiments : string -> option Qc.
Variable extract_tags : string -> nat -> list string.

Let th0 := Config.threshold Config.ANALYSIS_CONFIG.

Lemma classify_shipped_nonnegative (s : Qc) :
  (Q2Qc 0 <= s)%Qc -> classify th0 s = "positive" \/ classify th0 s = "neutral".
Proof.
  intros Hs. unfold classify.
  destruct (decide _); [by left|]. right.
  rewrite decide_False; [done|].
  intros Hlt. pose proof (Qcle_lt_trans _ _ _ Hs Hlt) as H.
  vm_compute in H. discriminate H.
Qed.

Lemma analyze_title_shipped (title : string) :
  (forall t s, snownlp_sentiments t = Some s -> (Q2Qc 0 <= s)%Qc /\ (s <= Q2Qc 1)%Qc) ->
  let a := analyze_title th0 py_strip snownlp_sentiments title in
  (a.1 = "positive" \/ a.1 = "neutral")
  /\ (Q2Qc 0 <= a.2)%Qc /\ (a.2 <= Q2Qc 1)%Qc.
Proof.
  intros Hrange. unfold analyze_title.
  assert (Hhalf : (Q2Qc 0 <= Q2Qc (1 # 2))%Qc /\ (Q2Qc (1 # 2) <= Q2Qc 1)%Qc)
    by (split; vm_compute; discriminate).
  destruct (negb _); [|cbn; split; [by right | done]].
  destruct (snownlp_sentiments title) as [s|] eqn:Es; [|cbn; split; [by right | done]].
  destruct (Hrange title s Es) as [H0 H1]. cbn [fst snd].
  split; [by apply classify_shipped_nonnegative | done].
Qed.

Lemma titles_labelled_absent (l : string) (titles labels : list string) :
  Forall (fun x => x <> l) labels -> titles_labelled l titles labels = [].
Proof.
  intros Hl. unfold titles_labelled.
  replace (filter (fun tl : string * string => tl.2 = l) (zip titles labels))
    with (@nil (string * string)); [done|].
  symmetry. revert titles.
  induction Hl as [|x labels Hx _ IH]; intros [|t titles]; try done.
  cbn [zip zip_with]. rewrite filter_cons, decide_False by done. apply IH.
Qed.

(** C10. Under the shipped thresholds (positive 0.6, negative -0.1), with
    a sentiment library whose scores lie in [0,1], no title is labelled
    negative: every label is positive or neutral, every stored score lies
    in [0,1] (0.5 for an empty title or a failed classification), and the
    negative-keyword entry of the result is absent. *)
Theorem analyze_sentiment_never_negative (titles : list string) :
  (forall t s, snownlp_sentiments t = Some s -> (Q2Qc 0 <= s)%Qc /\ (s <= Q2Qc 1)%Qc) ->
  let res := analyze_sentiment th0 py_strip snownlp_sentiments extract_tags titles in
  Forall (fun l => l = "positive" \/ l = "neutral") (sentiments res)
  /\ Forall (fun s => (Q2Qc 0 <= s)%Qc /\ (s <= Q2Qc 1)%Qc) (sentiment_scores res)
  /\ ("negative" ∉ sentiments res)
  /\ negative_keywords res = None.
Proof.
  intros Hrange. cbn zeta. unfold analyze_sentiment.
  cbn [sentiments sentiment_scores negative_keywords].
  assert (Hlab : Forall (fun l => l = "positive" \/ l = "neutral")
                   (analyze_title th0 py_strip snownlp_sentiments <$> titles).*1).
  { induction titles as [|t ts IH]; [constructor|].
    cbn [fmap list_fmap]. constructor; [|exact IH].
    by apply (analyze_title_shipped t Hrange). }
  split; [exact Hlab|]. split; [|split].
  - induction titles as [|t ts IH]; [constructor|].
    cbn [fmap list_fmap]. constructor; [|apply IH].
    + by apply (analyze_title_shipped t Hrange).
    + by apply Forall_inv_tail in Hlab.
  - intros Hin. rewrite list.Forall_forall in Hlab.
    destruct (Hlab _ Hin); discriminate.
  - rewrite titles_labelled_absent; [done|].
    apply list.Forall_forall. intros l Hl.
    rewrite list.Forall_forall in Hlab.
    destruct (Hlab l Hl) as [->| ->]; discriminate.
Qed.

End NoNegativeLabel.

Lemma analyze_sentiment_never_negative_witness :
  Forall (fun l => l = "positive" \/ l = "neutral")
    (sentiments (analyze_sentiment (Config.threshold Config.ANALYSIS_CONFIG)
                   Samples.no_strip Samples.scores_065 Samples.no_tags
                   Samples.three_titles))
  /\ negative_keywords
       (analyze_sentiment (Config.threshold Config.ANALYSIS_CONFIG)
          Samples.no_strip Samples.scores_065 Samples.no_tags Samples.three_titles)
     = None.
Proof.
  destruct (analyze_sentiment_never_negative Samples.no_strip Samples.scores_065
              Samples.no_tags Samples.three_titles) as (Hl & _ & _ & Hk).
  - intros t s. unfold Samples.scores_065.
    destruct (String.eqb t "boom"); [discriminate|].
    intros [= <-]. split; vm_compute; discriminate.
  - split; [exact Hl | exact Hk].
Defined.

(** The three sample titles: a scored one, an empty one, one on which the
    library raises. *)
Example analyze_sentiment_scenario :
  let res := analyze_sentiment (Config.threshold Config.ANALYSIS_CONFIG)
               Samples.no_strip Samples.scores_065 Samples.no_tags
               Samples.three_titles in
  sentiments res = ["positive"; "neutral"; "neutral"]
  /\ positive_keywords res = Some []
  /\ negative_keywords res = None.
Proof. vm_compute. repeat split; reflexivity. Qed.

(** ** Command line *)

(** C9, as the code has it. With the dry-run flag, [cli.main] creates the
    two directories, constructs the analyzer, logs that it checks the
    configuration, and then fails: [BilibiliAnalyzer] defines no
    [validate_config], the call raises [AttributeError], the handler logs
    the failure and the process exits with status 1. No collection,
    analysis or visualization is started, and the message that validation
    passed is never logged. *)
Theorem cli_dry_run_exits_with_failure (a : Cli.args) :
  Cli.dry_run a = true ->
  Cli.main a
  = ([Cli.Mkdir "logs"; Cli.Mkdir (Cli.output_dir a); Cli.Init;
      Cli.LogInfo "Dry run mode - checking configuration...";
      Cli.LogError "Analysis failed"]
       ++ (if Cli.verbose a then [Cli.LogException] else []),
     Cli.SysExit 1).
Proof.
  intros Hd. unfold Cli.main, Cli.main_try. rewrite Hd. reflexivity.
Qed.

Lemma cli_dry_run_exits_with_failure_witness :
  Cli.main Samples.dry_run_args
  = ([Cli.Mkdir "logs"; Cli.Mkdir "output"; Cli.Init;
      Cli.LogInfo "Dry run mode - checking configuration...";
      Cli.LogError "Analysis failed"],
     Cli.SysExit 1).
Proof.
  exact (cli_dry_run_exits_with_failure Samples.dry_run_args eq_refl).
Defined.

(** [validate_config] is not among the methods of the class. *)
Example validate_config_undefined :
  "validate_config" ∉ Cli.BilibiliAnalyzer_methods.
Proof. apply (bool_decide_eq_false_1 _). reflexivity. Qed.

(** ** A whole collection run *)

(** Fifteen keywords all finding the same video: the merged frame holds it
    once, as found by the last keyword and with the last stamp. *)
Example collect_all_data_scenario :
  exists t,
    (fun r : dict => (r !! "bvid", r !! "search_keyword", r !! "collected_at"))
      <$> (collect_all_data Samples.no_str Z Samples.search_service Samples.read_clock
             Samples.sleep_for 1700000000%Z).1
    = [(Some (VStr "BV1"), Some (VStr "执行文化"), Some (VInt t))]
    /\ (1700000000 < t)%Z.
Proof. eexists. split; [vm_compute; reflexivity | reflexivity]. Qed.

(** The sample run meets the assumptions on the clock, so its rows are in
    collection order. *)
Example collect_keywords_scenario_in_order :
  StronglySorted stamp_le
    (collect_keywords Samples.no_str Z Samples.search_service Samples.read_clock
       Samples.sleep_for Config.SEARCH_KEYWORDS [] 1700000000%Z).1.
Proof.
  apply (collect_keywords_collection_order Samples.no_str Z Samples.search_service
           Samples.read_clock Samples.sleep_for (fun w => w)).
  - intros w. cbn. lia.
  - intros k p w. cbn. lia.
  - intros d w. unfold Samples.sleep_for. lia.
Qed.

(** The other modes: [collect] runs the collection and returns; [analyze],
    [visualize] and [full] call methods the class does not define and end
    like the dry run. *)
Example cli_modes :
  let run m := Cli.main {| Cli.mode := m; Cli.force_recollect_flag := false;
                           Cli.config := None; Cli.output_dir := "output";
                           Cli.verbose := false; Cli.dry_run := false |} in
  (run "collect").2 = Cli.Returns
  /\ (run "analyze").2 = Cli.SysExit 1
  /\ (run "visualize").2 = Cli.SysExit 1
  /\ (run "full").2 = Cli.SysExit 1.
Proof. repeat split; reflexivity. Qed.

(* ================================================================== *)
(** * Further properties of the pipeline                               *)
(* ================================================================== *)

(** ** What enrichment leaves alone *)

Lemma merge_detail_untouched (row : dict) (video_info : value) (o : dict) (k : string) :
  merge_detail row video_info = Ok o -> k ∉ updated_keys -> o !! k = row !! k.
Proof.
  intros H Hk. merge_detail_steps H. injection H as <-.
  apply lookup_union_r.
  repeat (rewrite lookup_insert_ne
            by (intros <-; apply Hk; unfold updated_keys; repeat constructor)).
  apply lookup_empty.
Qed.

Lemma merge_detail_written (row : dict) (video_info : value) (o : dict) (k : string) :
  merge_detail row video_info = Ok o -> k ∈ updated_keys -> is_Some (o !! k).
Proof.
  intros H Hk. merge_detail_steps H. injection H as <-.
  unfold updated_keys in Hk.
  repeat (apply elem_of_cons in Hk as [->|Hk]);
    try (eexists; apply lookup_union_Some_l; reflexivity).
  by apply elem_of_nil in Hk.
Qed.

(** X1. A successful merge writes the 21 enrichment keys and nothing else:
    every other key of the row, among them the id, the title, the flat
    author, the search keyword and the collection stamp, keeps its value or
    its absence; the owner of the detail goes to [owner_name] and does not
    replace [author]. *)
Theorem merge_detail_writes_only_updated_keys (row : dict) (video_info : value) (o : dict) :
  merge_detail row video_info = Ok o ->
  (forall k, k ∈ updated_keys -> is_Some (o !! k))
  /\ (forall k, k ∉ updated_keys -> o !! k = row !! k)
  /\ o !! "bvid" = row !! "bvid"
  /\ o !! "title" = row !! "title"
  /\ o !! "author" = row !! "author"
  /\ o !! "search_keyword" = row !! "search_keyword"
  /\ o !! "collected_at" = row !! "collected_at".
Proof.
  intros H. split; [intros k; apply (merge_detail_written row video_info o k H)|].
  split; [intros k; apply (merge_detail_untouched row video_info o k H)|].
  repeat split; apply (merge_detail_untouched row video_info o _ H);
    apply (bool_decide_eq_false_1 _); reflexivity.
Qed.

Lemma merge_detail_writes_only_updated_keys_witness :
  (forall k, k ∈ updated_keys -> is_Some (Samples.sample_enriched !! k))
  /\ (forall k, k ∉ updated_keys ->
        Samples.sample_enriched !! k = Samples.searched "BV1" 1 !! k)
  /\ Samples.sample_enriched !! "bvid" = Samples.searched "BV1" 1 !! "bvid"
  /\ Samples.sample_enriched !! "title" = Samples.searched "BV1" 1 !! "title"
  /\ Samples.sample_enriched !! "author" = Samples.searched "BV1" 1 !! "author"
  /\ Samples.sample_enriched !! "search_keyword"
     = Samples.searched "BV1" 1 !! "search_keyword"
  /\ Samples.sample_enriched !! "collected_at"
     = Samples.searched "BV1" 1 !! "collected_at".
Proof.
  apply (merge_detail_writes_only_updated_keys (Samples.searched "BV1" 1)
           Samples.sample_detail Samples.sample_enriched).
  vm_compute. reflexivity.
Defined.

Section EnrichmentColumns.

Variable World : Type.
Variable http_detail : value -> World -> http_response * World.

Lemma enhance_row_column (row : dict) (w : World) (k : string) :
  k ∉ updated_keys ->
  (fun r : dict => r !! k) <$> (enhance_row World http_detail row w).1
  = (fun r : dict => r !! k) <$> filter (fun r => has_id r = true) [row].
Proof.
  intros Hk. rewrite filter_cons, filter_nil.
  destruct (has_id row) eqn:Hid.
  - rewrite decide_True by done.
    destruct (enhance_row_keeps World http_detail row w Hid) as (o & -> & Ho).
    cbn [fmap list_fmap]. f_equal.
    unfold enriched_or_unchanged in Ho.
    destruct (detail_of World http_detail row w) as [info|]; [|by subst].
    destruct Ho as [[Hm _]|[_ ->]]; [|done].
    by apply (merge_detail_untouched row info o k Hm).
  - rewrite decide_False by done.
    by rewrite (enhance_row_skips World http_detail row w Hid).
Qed.

Lemma enhance_video_data_column (rows : list dict) (w : World) (k : string) :
  k ∉ updated_keys ->
  (fun r : dict => r !! k) <$> (enhance_video_data World http_detail rows w).1
  = (fun r : dict => r !! k) <$> filter (fun r => has_id r = true) rows.
Proof.
  intros Hk. revert w. induction rows as [|row rows IH]; intros w; [done|].
  cbn [enhance_video_data].
  pose proof (enhance_row_column row w k Hk) as Hrow.
  destruct (enhance_row World http_detail row w) as [out w1]. cbn [fst] in Hrow.
  specialize (IH w1).
  destruct (enhance_video_data World http_detail rows w1) as [outs w2].
  cbn [fst] in *. rewrite fmap_app, Hrow, IH, <- fmap_app. f_equal.
  rewrite !filter_cons, filter_nil. by destruct (decide (has_id row = true)).
Qed.

(** X2. Enrichment keeps the frame's identity columns: for every key it
    does not write, the column of the output equals the column of the input
    restricted to the rows with a non-empty id, in the same order. So the
    ids come out as they went in, a frame without duplicate ids stays
    without duplicates, and the output is never longer than the input. *)
Theorem enhance_video_data_preserves_ids (rows : list dict) (w : World) :
  let out := (enhance_video_data World http_detail rows w).1 in
  (forall k, k ∉ updated_keys ->
     (fun r : dict => r !! k) <$> out
     = (fun r : dict => r !! k) <$> filter (fun r => has_id r = true) rows)
  /\ row_id <$> out = row_id <$> filter (fun r => has_id r = true) rows
  /\ (NoDup (row_id <$> rows) -> NoDup (row_id <$> out))
  /\ length out <= length rows.
Proof.
  cbn zeta.
  assert (Hid : row_id <$> (enhance_video_data World http_detail rows w).1
                = row_id <$> filter (fun r => has_id r = true) rows).
  { apply (enhance_video_data_column rows w "bvid").
    apply (bool_decide_eq_false_1 _). reflexivity. }
  split; [intros k Hk; by apply enhance_video_data_column|].
  split; [exact Hid|]. split.
  - intros Hnd. rewrite Hid.
    eapply sublist_NoDup; [exact Hnd|].
    apply fmap_sublist, sublist_filter.
  - rewrite <- (length_fmap row_id), Hid, length_fmap.
    apply length_filter.
Qed.

(** X3. When every detail call fails, enrichment is the identity on the
    rows it keeps: the output is the input without the rows whose id is
    empty, each record as it was. *)
Theorem enhance_video_data_outage (rows : list dict) (w : World) :
  (forall row w0, detail_of World http_detail row w0 = None) ->
  (enhance_video_data World http_detail rows w).1
  = filter (fun r => has_id r = true) rows.
Proof.
  intros Hdown. revert w. induction rows as [|row rows IH]; intros w; [done|].
  cbn [enhance_video_data]. rewrite filter_cons.
  specialize (IH (enhance_row World http_detail row w).2).
  destruct (has_id row) eqn:Hid.
  - destruct (enhance_row_keeps World http_detail row w Hid) as (o & Ho & Hspec).
    rewrite (Hdown row w) in Hspec. cbn in Hspec. subst o.
    destruct (enhance_row World http_detail row w) as [out w1].
    cbn [fst snd] in *. subst out.
    destruct (enhance_video_data World http_detail rows w1) as [outs w2].
    cbn [fst] in *. rewrite decide_True by done. by rewrite IH.
  - pose proof (enhance_row_skips World http_detail row w Hid) as Ho.
    destruct (enhance_row World http_detail row w) as [out w1].
    cbn [fst snd] in *. subst out.
    destruct (enhance_video_data World http_detail rows w1) as [outs w2].
    cbn [fst] in *. by rewrite decide_False by done.
Qed.

End EnrichmentColumns.

Lemma enhance_video_data_outage_witness :
  (enhance_video_data unit Samples.outage Samples.five_rows ()).1
  = filter (fun r => has_id r = true) Samples.five_rows.
Proof.
  apply (enhance_video_data_outage unit Samples.outage Samples.five_rows ()).
  intros row w0. unfold detail_of. by destruct (row !! "bvid").
Defined.

(** ** Deduplication and date filter, applied again *)

Lemma drop_duplicates_last_NoDup_id (rows : list dict) :
  NoDup (row_id <$> rows) -> drop_duplicates_last rows = rows.
Proof.
  induction rows as [|row rest IH]; [done|].
  cbn [fmap list_fmap drop_duplicates_last].
  intros [Hnotin Hnd]%NoDup_cons.
  destruct (existsb _ rest) eqn:E.
  - apply later_duplicate_spec in E as (r & Hr & Hid).
    destruct Hnotin. rewrite <- Hid. apply list_elem_of_fmap. by exists r.
  - by rewrite IH.
Qed.

(** X4. Deduplication changes nothing on a frame whose ids are already
    pairwise distinct, so applying it twice is the same as applying it
    once; what it keeps is a sub-list of the input, in the input's order. *)
Theorem drop_duplicates_last_idempotent (rows : list dict) :
  (NoDup (row_id <$> rows) -> drop_duplicates_last rows = rows)
  /\ drop_duplicates_last (drop_duplicates_last rows) = drop_duplicates_last rows
  /\ drop_duplicates_last rows `sublist_of` rows.
Proof.
  split; [apply drop_duplicates_last_NoDup_id|]. split.
  - apply drop_duplicates_last_NoDup_id, drop_duplicates_last_NoDup.
  - induction rows as [|row rest IH]; cbn [drop_duplicates_last]; [done|].
    destruct (existsb _ rest); [by apply sublist_cons | by apply sublist_skip].
Qed.

Lemma filter_by_date_typed (videos : list dict) (s e : Z) :
  Forall timestamps_typed videos ->
  filter_by_date videos s e
  = Ok (filter (fun v => (s <= spec_effective_timestamp v <= e)%Z) videos).
Proof.
  intros Ht. unfold filter_by_date. by rewrite filter_by_date_loop_spec.
Qed.

(** X5. On records with integer timestamps the date filter keeps a
    sub-list of its input, and filtering its output again with the same
    window returns that output unchanged; an empty window (start after end)
    keeps nothing. *)
Theorem filter_by_date_idempotent (videos : list dict) (start_ts end_ts : Z) :
  Forall timestamps_typed videos ->
  exists kept,
    filter_by_date videos start_ts end_ts = Ok kept
    /\ kept `sublist_of` videos
    /\ filter_by_date kept start_ts end_ts = Ok kept
    /\ ((end_ts < start_ts)%Z -> kept = []).
Proof.
  intros Ht. eexists. split; [by apply filter_by_date_typed|].
  split; [apply sublist_filter|]. split.
  - rewrite filter_by_date_typed.
    + f_equal. by apply list_filter_filter_l.
    + apply list.Forall_forall. intros v [_ Hv]%list_elem_of_filter.
      rewrite list.Forall_forall in Ht. by apply Ht.
  - intros Hempty. induction videos as [|v videos IH]; [done|].
    rewrite filter_cons, decide_False by lia.
    apply IH. by apply Forall_inv_tail in Ht.
Qed.

Lemma filter_by_date_idempotent_witness :
  exists kept,
    filter_by_date Samples.window_videos 1546272000 1767225600 = Ok kept
    /\ kept `sublist_of` Samples.window_videos
    /\ filter_by_date kept 1546272000 1767225600 = Ok kept
    /\ ((1767225600 < 1546272000)%Z -> kept = []).
Proof.
  apply (filter_by_date_idempotent Samples.window_videos 1546272000 1767225600).
  repeat constructor; vm_compute; eauto.
Defined.

Lemma filter_by_date_loop_ok (videos acc : list dict) (s e : Z) :
  is_ok (filter_by_date_loop videos s e acc) = true
  <-> Forall (fun v => is_ok (in_window s e v) = true) videos.
Proof.
  revert acc. induction videos as [|v videos IH]; intros acc; cbn [filter_by_date_loop].
  - split; [constructor | done].
  - destruct (in_window s e v) as [keep|] eqn:E; cbn [mbind result_bind].
    + rewrite IH. split.
      * intros H. constructor; [by rewrite E | done].
      * by intros H%Forall_inv_tail.
    + split; [done|]. intros H%Forall_inv. by rewrite E in H.
Qed.

(** X6. The date filter has no handler of its own: it returns exactly when
    the effective timestamp of every record can be compared with the
    integer bounds, and raises as soon as one record cannot (a timestamp that is
    a string, a null or a container), losing the whole list. A record is
    comparable exactly when its [pubdate] is an integer or boolean and, if
    that is not positive, its [created] is one too. *)
Theorem filter_by_date_raises_on_untyped (videos : list dict) (start_ts end_ts : Z) :
  (is_ok (filter_by_date videos start_ts end_ts) = true
   <-> Forall (fun v => is_ok (in_window start_ts end_ts v) = true) videos)
  /\ (forall v,
        is_ok (in_window start_ts end_ts v) = true
        <-> exists p, as_int (get v "pubdate" (VInt 0)) = Ok p
              /\ ((0 < p)%Z \/ is_ok (as_int (get v "created" (VInt 0))) = true)).
Proof.
  split; [apply filter_by_date_loop_ok|].
  intros v. unfold in_window, effective_timestamp.
  destruct (as_int (get v "pubdate" (VInt 0))) as [p|] eqn:Ep; cbn [mbind result_bind].
  - destruct (Z.ltb_spec 0 p) as [Hp|Hp].
    + rewrite Ep. cbn. split; [|done]. intros _. exists p. split; [done | by left].
    + destruct (as_int (get v "created" (VInt 0))) as [c|]; cbn.
      * split; [|done]. intros _. exists p. split; [done | by right].
      * split; [done|]. intros (p' & [= <-] & [?|?]); [lia | done].
  - split; [done|]. by intros (p & ? & _).
Qed.

(** A string where a timestamp is expected makes the filter raise. *)
Example filter_by_date_string_timestamp :
  filter_by_date
    [Samples.video "BV1" 1600000000 0;
     <["pubdate" := VStr "2020-01-01"]> (Samples.video "BV2" 0 0)]
    1546272000 1767225600
  = Raise TypeError.
Proof. vm_compute. reflexivity. Qed.

(** ** The collection loop: provenance and requests *)

Section CollectionLoopFacts.

Variable py_str : value -> string.
Variable World : Type.
Variable http_search : string -> Z -> World -> http_response * World.
Variable time_now : World -> Z * World.
Variable sleep : Z -> World -> World.

Lemma extracted_record_columns (video_item : value) (d : dict) :
  extract_video_data py_str video_item = Ok d -> d <> ∅ ->
  Forall (fun f : string * string * value => is_Some (d !! f.1.1)) field_defaults
  /\ is_Some (d !! "title") /\ is_Some (d !! "author").
Proof.
  intros Hd Hne. unfold extract_video_data in Hd.
  destruct (extractable video_item) eqn:Hx.
  - apply extractable_spec in Hx as (kvs & -> & Ht).
    destruct (extract_record_ok py_str (to_dict kvs) Ht) as (d2 & Hd2 & Hf & Ha & Hti).
    rewrite Hd2 in Hd. cbn [try_except] in Hd. injection Hd as ->.
    split; [|by rewrite Hti, Ha; split; eexists].
    eapply List.Forall_impl; [|exact Hf]. intros f ->. by eexists.
  - exfalso. destruct video_item; cbn [try_except] in Hd;
      try (injection Hd as <-; by apply Hne).
    destruct (extract_record_raises py_str (to_dict kvs)) as [e He].
    + cbn [extractable] in Hx. by destruct (to_dict kvs !! "title") as [[]|].
    + rewrite He in Hd. cbn [try_except] in Hd. injection Hd as <-. by apply Hne.
Qed.

Lemma stamped_record_collected (keyword : string) (t : Z) (video_item : value) (d : dict) :
  extract_video_data py_str video_item = Ok d -> d <> ∅ ->
  collected_for keyword
    (<["collected_at" := VInt t]> (<["search_keyword" := VStr keyword]> d)).
Proof.
  intros Hd Hne.
  destruct (extracted_record_columns video_item d Hd Hne) as (Hf & Hti & Ha).
  assert (Hkeep : forall k, is_Some (d !! k) ->
            is_Some ((<["collected_at" := VInt t]>
                        (<["search_keyword" := VStr keyword]> d)) !! k)).
  { intros k Hk. apply lookup_insert_is_Some'. right.
    apply lookup_insert_is_Some'. by right. }
  split; [by rewrite lookup_insert_ne, lookup_insert_eq|].
  split; [exists t; by rewrite lookup_insert_eq|].
  split; [|split; by apply Hkeep].
  eapply List.Forall_impl; [|exact Hf]. intros f Hk. by apply Hkeep.
Qed.

Lemma extract_page_collected keyword videos all_videos w all_videos' w' finished :
  extract_page py_str World time_now keyword videos all_videos w
  = (all_videos', w', finished) ->
  Forall (collected_for keyword) all_videos ->
  Forall (collected_for keyword) all_videos'.
Proof.
  revert all_videos w.
  induction videos as [|item videos IH]; intros all_videos w; cbn [extract_page].
  - by intros [= <- <- <-].
  - destruct (extract_video_data py_str item) as [d|] eqn:Ed; [|by intros [= <- <- <-]].
    destruct (bool_decide_reflect (d <> ∅)) as [Hne|_]; [|apply IH].
    destruct (time_now w) as [t w1].
    intros Hx Hall. apply (IH _ _ Hx).
    apply Forall_app. split; [done|].
    constructor; [|constructor]. by apply (stamped_record_collected keyword t item).
Qed.

Lemma collect_pages_collected keyword pages_left page all_videos w :
  Forall (collected_for keyword) all_videos ->
  Forall (collected_for keyword)
    (collect_pages py_str World http_search time_now sleep keyword pages_left page
       all_videos w).1.
Proof.
  revert page all_videos w.
  induction pages_left as [|n IH]; intros page all_videos w Hall; [done|].
  cbn [collect_pages].
  destruct (http_search keyword page w) as [resp w1].
  destruct (search_videos resp) as [search_result|]; [|done].
  destruct (_ || _); [done|].
  destruct (negb (truthy _)); [done|].
  destruct (iterate _) as [items|]; [|done].
  destruct (extract_page py_str World time_now keyword items all_videos w1)
    as [[all_videos' w2] finished] eqn:Ex.
  pose proof (extract_page_collected _ _ _ _ _ _ _ Ex Hall) as Hall2.
  destruct (negb finished); [done|].
  destruct (_ <=? _)%Z; [done|]. by apply IH.
Qed.

Lemma collected_for_fallback_columns (keyword : string) (r : dict) :
  collected_for keyword r -> Forall (fun c => is_Some (r !! c)) fallback_columns.
Proof.
  intros (_ & _ & Hf & _ & Ha). unfold field_defaults in Hf.
  repeat match goal with
         | H : Forall _ (_ :: _) |- _ =>
             let H1 := fresh "Hcol" in
             apply List.Forall_cons_iff in H as [H1 H]; cbn [fst snd] in H1
         end.
  unfold fallback_columns. repeat (constructor; [assumption|]). constructor.
Qed.

(** X7. Every record [collect_keyword_data] returns for a keyword carries
    that keyword as [search_keyword] and an integer [collected_at], has
    every column of the extraction schema (so enrichment finds each column
    it falls back on), and passed the configured date window. *)
Theorem collect_keyword_data_provenance (keyword : string) (max_pages : nat)
    (w w' : World) (rows : list dict) :
  collect_keyword_data py_str World http_search time_now sleep keyword max_pages w
  = (Ok rows, w') ->
  Forall (fun r =>
            collected_for keyword r
            /\ Forall (fun c => is_Some (r !! c)) fallback_columns
            /\ in_window (Config.start_timestamp Config.DATE_RANGE)
                 (Config.end_timestamp Config.DATE_RANGE) r = Ok true) rows.
Proof.
  unfold collect_keyword_data.
  pose proof (collect_pages_collected keyword max_pages 1 [] w
                (List.Forall_nil _)) as Hall.
  destruct (collect_pages py_str World http_search time_now sleep keyword max_pages 1 [] w)
    as [all_videos w1]. cbn [fst] in Hall.
  intros [= Hf <-]. apply filter_by_date_loop_filter in Hf. cbn [app] in Hf. subst rows.
  apply list.Forall_forall. intros r [Hwin Hr]%list_elem_of_filter.
  rewrite list.Forall_forall in Hall. specialize (Hall r Hr).
  split; [done|]. split; [by apply (collected_for_fallback_columns keyword)|done].
Qed.

End CollectionLoopFacts.

Lemma collect_keyword_data_provenance_witness :
  Forall (fun r =>
            collected_for "执行力" r
            /\ Forall (fun c => is_Some (r !! c)) fallback_columns
            /\ in_window (Config.start_timestamp Config.DATE_RANGE)
                 (Config.end_timestamp Config.DATE_RANGE) r = Ok true)
    Samples.keyword_rows.
Proof.
  apply (collect_keyword_data_provenance Samples.no_str Z Samples.search_service
           Samples.read_clock Samples.sleep_for "执行力" 20 1700000000%Z
           Samples.keyword_run.2 Samples.keyword_rows).
  vm_compute. reflexivity.
Defined.

Lemma collect_all_data_keeps_latest_witness :
  NoDup (row_id <$> (collect_all_data Samples.no_str Z Samples.search_service
                       Samples.read_clock Samples.sleep_for 1700000000%Z).1)
  /\ forall r,
       r ∈ (collect_keywords Samples.no_str Z Samples.search_service
              Samples.read_clock Samples.sleep_for Config.SEARCH_KEYWORDS []
              1700000000%Z).1 ->
       exists s,
         s ∈ (collect_all_data Samples.no_str Z Samples.search_service
                Samples.read_clock Samples.sleep_for 1700000000%Z).1
         /\ row_id s = row_id r
         /\ forall ts tr, collected_at s = Some ts -> collected_at r = Some tr ->
              (tr <= ts)%Z.
Proof.
  apply (collect_all_data_keeps_latest Samples.no_str Z Samples.search_service
           Samples.read_clock Samples.sleep_for (fun w => w)).
  - intros w. cbn. lia.
  - intros k p w. cbn. lia.
  - intros d w. unfold Samples.sleep_for. lia.
Defined.

Section RequestLog.

Variable py_str : value -> string.
Variable World : Type.
Variable http_search : string -> Z -> World -> http_response * World.
Variable time_now : World -> Z * World.
Variable sleep : Z -> World -> World.

Local Abbreviation collect_pages_logged :=
  (collect_pages py_str (logged World) (logged_search http_search)
     (logged_time_now time_now) (logged_sleep sleep)).

Lemma page_requests_succ (keyword : string) (page : Z) (n : nat) :
  page_requests keyword page (S n)
  = (keyword, page) :: page_requests keyword (page + 1) n.
Proof.
  unfold page_requests. cbn [seq fmap list_fmap].
  rewrite Z.add_0_r. f_equal.
  rewrite <- seq_shift, <- list_fmap_compose.
  apply list_fmap_ext. intros _ i _. cbn. f_equal. lia.
Qed.

(** Extraction reads the clock only: it makes no request, and the run that
    records requests extracts what the plain run extracts. *)
Lemma extract_page_logged keyword videos all_videos w log :
  extract_page py_str (logged World) (logged_time_now time_now) keyword videos
    all_videos (w, log)
  = let '(a, w', f) := extract_page py_str World time_now keyword videos all_videos w in
    (a, (w', log), f).
Proof.
  revert all_videos w. induction videos as [|item videos IH]; intros all_videos w;
    cbn [extract_page]; [done|].
  destruct (extract_video_data py_str item) as [d|]; [|done].
  destruct (bool_decide (d <> ∅)); [|apply IH].
  unfold logged_time_now at 1. cbn [fst snd].
  destruct (time_now w) as [t w1]. apply IH.
Qed.

Lemma collect_pages_logged_spec keyword pages_left page all_videos w log :
  exists n,
    n <= pages_left
    /\ collect_pages_logged keyword pages_left page all_videos (w, log)
       = let '(a, w') := collect_pages py_str World http_search time_now sleep keyword
                           pages_left page all_videos w in
         (a, (w', log ++ page_requests keyword page n)).
Proof.
  revert page all_videos w log.
  induction pages_left as [|m IH]; intros page all_videos w log.
  { exists 0. split; [lia|]. cbn. by rewrite app_nil_r. }
  cbn [collect_pages]. unfold logged_search at 1. cbn [fst snd].
  destruct (http_search keyword page w) as [resp w1].
  assert (Hone : log ++ [(keyword, page)] = log ++ page_requests keyword page 1).
  { by rewrite page_requests_succ. }
  destruct (search_videos resp) as [search_result|];
    [|exists 1; split; [lia | by rewrite Hone]].
  destruct (_ || _); [exists 1; split; [lia | by rewrite Hone]|].
  destruct (negb (truthy _)); [exists 1; split; [lia | by rewrite Hone]|].
  destruct (iterate _) as [items|]; [|exists 1; split; [lia | by rewrite Hone]].
  rewrite extract_page_logged.
  destruct (extract_page py_str World time_now keyword items all_videos w1)
    as [[all_videos' w2] finished].
  destruct (negb finished); [exists 1; split; [lia | by rewrite Hone]|].
  destruct (_ <=? _)%Z; [exists 1; split; [lia | by rewrite Hone]|].
  change (logged_sleep sleep (Config.request_delay Config.ANALYSIS_CONFIG)
            (w2, log ++ [(keyword, page)]))
    with (sleep (Config.request_delay Config.ANALYSIS_CONFIG) w2,
          log ++ [(keyword, page)]).
  destruct (IH (page + 1)%Z all_videos'
              (sleep (Config.request_delay Config.ANALYSIS_CONFIG) w2)
              (log ++ [(keyword, page)])) as (n & Hn & ->).
  exists (S n). split; [lia|].
  destruct (collect_pages py_str World http_search time_now sleep keyword m
              (page + 1) all_videos' _) as [a w'].
  by rewrite page_requests_succ, <- app_assoc.
Qed.

(** X8. The search requests [collect_keyword_data] makes for a keyword are
    for the pages 1, 2, 3, ... of that keyword in this order, without a gap
    or a repeat, and there are at most [max_pages] of them; recording the
    requests changes neither the records returned nor the state the run
    ends in. *)
Theorem collect_keyword_data_requests (keyword : string) (max_pages : nat)
    (w : World) (log : list (string * Z)) :
  exists n,
    n <= max_pages
    /\ collect_keyword_data py_str (logged World) (logged_search http_search)
         (logged_time_now time_now) (logged_sleep sleep) keyword max_pages (w, log)
       = let '(r, w') := collect_keyword_data py_str World http_search time_now sleep
                           keyword max_pages w in
         (r, (w', log ++ page_requests keyword 1 n)).
Proof.
  unfold collect_keyword_data.
  destruct (collect_pages_logged_spec keyword max_pages 1 [] w log) as (n & Hn & ->).
  exists n. split; [done|].
  by destruct (collect_pages py_str World http_search time_now sleep keyword max_pages
                 1 [] w).
Qed.

End RequestLog.

(** The sample run asks for two pages of its keyword: the first holds a
    video, the second is empty and ends the loop. *)
Example collect_keyword_data_requests_scenario :
  (collect_keyword_data Samples.no_str (logged Z)
     (logged_search Samples.search_service) (logged_time_now Samples.read_clock)
     (logged_sleep Samples.sleep_for) "执行力" 20 (1700000000%Z, [])).2.2
  = [("执行力", 1%Z); ("执行力", 2%Z)].
Proof. vm_compute. reflexivity. Qed.

(** ** Extraction feeding enrichment *)

(** X10. A record made by [extract_video_data] can always be merged with
    a well-formed detail: the merge does not raise, every counter the
    detail's [stat] gives is taken from it, and every counter it lacks keeps
    the value extracted from the search item. *)
Theorem merge_detail_of_extracted_record (py_str : value -> string)
    (video_item video_info : value) (d : dict) :
  extract_video_data py_str video_item = Ok d -> d <> ∅ ->
  well_formed_detail video_info ->
  exists o,
    merge_detail d video_info = Ok o
    /\ (forall k v, k ∈ stat_counters -> detail_stat video_info k = Some v ->
          o !! k = Some v)
    /\ (forall k, k ∈ stat_counters -> detail_stat video_info k = None ->
          o !! k = d !! k).
Proof.
  intros Hd Hne Hwf.
  destruct (extracted_record_columns py_str video_item d Hd Hne) as (Hf & Hti & Ha).
  assert (Hcols : Forall (fun c => is_Some (d !! c)) fallback_columns).
  { unfold field_defaults in Hf.
    repeat match goal with
           | H : Forall _ (_ :: _) |- _ =>
               let H1 := fresh "Hcol" in
               apply List.Forall_cons_iff in H as [H1 H]; cbn [fst snd] in H1
           end.
    unfold fallback_columns. repeat (constructor; [assumption|]). constructor. }
  destruct (merge_detail_ok d video_info Hcols Hwf) as [o Ho].
  exists o. split; [done|]. split.
  - intros k v Hk Hv. by apply (merge_detail_counters d video_info o k Ho Hk).
  - intros k Hk Hn. by apply (merge_detail_counters d video_info o k Ho Hk).
Qed.

Lemma merge_detail_of_extracted_record_witness :
  exists o,
    merge_detail (Samples.searched "BV1" 1) Samples.sample_detail = Ok o
    /\ (forall k v, k ∈ stat_counters -> detail_stat Samples.sample_detail k = Some v ->
          o !! k = Some v)
    /\ (forall k, k ∈ stat_counters -> detail_stat Samples.sample_detail k = None ->
          o !! k = Samples.searched "BV1" 1 !! k).
Proof.
  apply (merge_detail_of_extracted_record Samples.no_str
           (VDict [("bvid", VStr "BV1"); ("title", VStr "t"); ("play", VInt 1)])).
  - reflexivity.
  - intros H. apply (f_equal (fun m : dict => m !! "bvid")) in H. discriminate H.
  - eexists. split; [reflexivity|]. split; exact I.
Defined.

(** ** Title cleaning *)

Lemma remove_all_absent (old s : string) :
  occurs old s = false -> remove_all old s = s.
Proof.
  unfold remove_all. induction s as [|c s IH]; [done|].
  cbn [occurs remove_all_from]. intros [Hp Ho]%orb_false_iff.
  rewrite Hp. by rewrite IH.
Qed.

Lemma remove_all_skip (old t s : string) :
  remove_all_from old (String.length t) (t +:+ s) = remove_all_from old 0 s.
Proof. induction t as [|c t IH]; [done|]. exact IH. Qed.

Lemma prefix_append (old s : string) : String.prefix old (old +:+ s) = true.
Proof.
  induction old as [|c old IH]; [by destruct s|].
  change (String c old +:+ s) with (String c (old +:+ s)).
  cbn [String.prefix]. destruct (Ascii.ascii_dec c c); [exact IH | done].
Qed.

Lemma remove_all_here (old s : string) :
  old <> EmptyString -> remove_all old (old +:+ s) = remove_all old s.
Proof.
  destruct old as [|c t]; [done|]. intros _. unfold remove_all.
  change (String c t +:+ s) with (String c (t +:+ s)).
  cbn [remove_all_from].
  change (String c (t +:+ s)) with (String c t +:+ s).
  rewrite prefix_append.
  replace (String.length (String c t) - 1) with (String.length t)
    by (cbn [String.length]; lia).
  apply remove_all_skip.
Qed.

Lemma remove_all_before (c : Ascii.ascii) (t a s : string) :
  has_char c a = false ->
  remove_all (String c t) (a +:+ s) = a +:+ remove_all (String c t) s.
Proof.
  unfold remove_all. induction a as [|c' a IH]; [done|].
  cbn [has_char]. intros [Hc Ha]%orb_false_iff.
  change (String c' a +:+ s) with (String c' (a +:+ s)).
  cbn [remove_all_from String.prefix].
  destruct (Ascii.ascii_dec c c') as [->|_]; [by rewrite Ascii.eqb_refl in Hc|].
  change (String c' a +:+ remove_all_from (String c t) 0 s)
    with (String c' (a +:+ remove_all_from (String c t) 0 s)).
  f_equal. by apply IH.
Qed.

Lemma has_char_occurs (c : Ascii.ascii) (t s : string) :
  has_char c s = false -> occurs (String c t) s = false.
Proof.
  induction s as [|c' s IH]; [done|].
  cbn [has_char occurs String.prefix]. intros [Hc Hs]%orb_false_iff.
  destruct (Ascii.ascii_dec c c') as [->|_]; [by rewrite Ascii.eqb_refl in Hc|].
  by apply IH.
Qed.

Lemma em_open_before (a s : string) :
  has_char "<"%char a = false ->
  remove_all em_open (a +:+ s) = a +:+ remove_all em_open s.
Proof.
  set (t := match em_open with String _ t => t | EmptyString => EmptyString end).
  change em_open with (String "<"%char t). apply remove_all_before.
Qed.

Lemma em_close_before (a s : string) :
  has_char "<"%char a = false ->
  remove_all em_close (a +:+ s) = a +:+ remove_all em_close s.
Proof.
  set (t := match em_close with String _ t => t | EmptyString => EmptyString end).
  change em_close with (String "<"%char t). apply remove_all_before.
Qed.

Lemma em_open_absent (s : string) :
  has_char "<"%char s = false -> remove_all em_open s = s.
Proof.
  intros H. apply remove_all_absent.
  set (t := match em_open with String _ t => t | EmptyString => EmptyString end).
  change em_open with (String "<"%char t). by apply has_char_occurs.
Qed.

Lemma em_close_absent (s : string) :
  has_char "<"%char s = false -> remove_all em_close s = s.
Proof.
  intros H. apply remove_all_absent.
  set (t := match em_close with String _ t => t | EmptyString => EmptyString end).
  change em_close with (String "<"%char t). by apply has_char_occurs.
Qed.

Lemma em_open_skips_close (b : string) :
  has_char "<"%char b = false ->
  remove_all em_open (em_close +:+ b) = em_close +:+ b.
Proof.
  intros H. unfold remove_all.
  change (em_close +:+ b)
    with (String "<"%char (String "/"%char (String "e"%char (String "m"%char
            (String ">"%char b))))).
  change (remove_all_from em_open 0
            (String "<"%char (String "/"%char (String "e"%char (String "m"%char
               (String ">"%char b))))))
    with (String "<"%char (String "/"%char (String "e"%char (String "m"%char
            (String ">"%char (remove_all_from em_open 0 b)))))).
  do 5 f_equal. by apply em_open_absent.
Qed.

(** The title [extract_video_data] stores for a dict item with a string
    title. *)
Lemma extract_video_data_title (py_str : value -> string)
    (kvs : list (string * value)) (t : string) :
  to_dict kvs !! "title" = Some (VStr t) ->
  exists d, extract_video_data py_str (VDict kvs) = Ok d
    /\ d !! "title" = Some (VStr (remove_all em_close (remove_all em_open t))).
Proof.
  intros Ht.
  destruct (extract_record_ok py_str (to_dict kvs)) as (d & Hd & _ & _ & Hti).
  { by rewrite Ht. }
  exists d. split.
  - unfold extract_video_data. by rewrite Hd.
  - by rewrite Hti, Ht.
Qed.

(** X11. Highlight removal: when the title of a search item is a text in
    which the keyword is wrapped in the highlight pair, written
    a + open marker + k + close marker + b with no [<] in a, k and b, the
    extracted title is a + k + b: both markers are removed and every other
    character is kept, in place. *)
Theorem extract_video_data_strips_highlight (py_str : value -> string)
    (kvs : list (string * value)) (a k b : string) :
  to_dict kvs !! "title" = Some (VStr (a +:+ em_open +:+ k +:+ em_close +:+ b)) ->
  has_char "<"%char a = false ->
  has_char "<"%char k = false ->
  has_char "<"%char b = false ->
  exists d, extract_video_data py_str (VDict kvs) = Ok d
    /\ d !! "title" = Some (VStr (a +:+ k +:+ b)).
Proof.
  intros Ht Ha Hk Hb.
  destruct (extract_video_data_title py_str kvs _ Ht) as (d & Hd & Hti).
  exists d. split; [done|]. rewrite Hti. do 2 f_equal.
  rewrite (em_open_before a _ Ha).
  rewrite remove_all_here by done.
  rewrite (em_open_before k _ Hk).
  rewrite (em_open_skips_close b Hb).
  rewrite (em_close_before a _ Ha).
  rewrite (em_close_before k _ Hk).
  rewrite remove_all_here by done.
  by rewrite (em_close_absent b Hb).
Qed.

(** X12. Titles without the highlight pair pass through: when neither
    marker occurs in the title of a search item, the extracted title is the
    title itself, whatever other markup it holds. *)
Theorem extract_video_data_keeps_other_markup (py_str : value -> string)
    (kvs : list (string * value)) (t : string) :
  to_dict kvs !! "title" = Some (VStr t) ->
  occurs em_open t = false ->
  occurs em_close t = false ->
  exists d, extract_video_data py_str (VDict kvs) = Ok d
    /\ d !! "title" = Some (VStr t).
Proof.
  intros Ht Ho Hc.
  destruct (extract_video_data_title py_str kvs _ Ht) as (d & Hd & Hti).
  exists d. split; [done|]. rewrite Hti.
  by rewrite (remove_all_absent em_open t Ho), (remove_all_absent em_close t Hc).
Qed.

Lemma extract_video_data_strips_highlight_witness :
  exists d,
    extract_video_data Samples.no_str
      (VDict [("title", VStr ("how to " +:+ em_open +:+ "focus" +:+ em_close +:+ " now"))])
    = Ok d
    /\ d !! "title" = Some (VStr ("how to " +:+ "focus" +:+ " now")).
Proof.
  apply (extract_video_data_strips_highlight Samples.no_str
           [("title", VStr ("how to " +:+ em_open +:+ "focus" +:+ em_close +:+ " now"))]
           "how to " "focus" " now"); reflexivity.
Defined.

Lemma extract_video_data_keeps_other_markup_witness :
  exists d,
    extract_video_data Samples.no_str (VDict [("title", VStr "<b>plan</b> & do")]) = Ok d
    /\ d !! "title" = Some (VStr "<b>plan</b> & do").
Proof.
  apply (extract_video_data_keeps_other_markup Samples.no_str
           [("title", VStr "<b>plan</b> & do")] "<b>plan</b> & do"); reflexivity.
Defined.

(** ** Preprocessing: columns and signs *)

Section PreprocessColumns.

Variable parse_number : string -> option Qc.

Lemma preprocess_data_unfold (r : row) :
  _preprocess_data parse_number r
  = match r !! "view" with
    | None => Raise KeyError
    | Some c =>
        let n := counter parse_number r in
        let score := (n "like" * Q2Qc 3 + n "coin" * Q2Qc 5 + n "favorite" * Q2Qc 4
                      + n "share" * Q2Qc 6 + n "reply" * Q2Qc 2)%Qc in
        Ok (<["engagement_rate" :=
                CNum (if decide (Q2Qc 0 < n "view")%Qc
                      then (score / n "view" * Q2Qc 100)%Qc else Q2Qc 0)]>
              (<["engagement_score" := CNum score]> (coerce_numeric parse_number r)))
    end.
Proof.
  unfold _preprocess_data.
  rewrite engagement_score_coerced. cbn [mbind result_bind].
  unfold engagement_rate_of, column_or_zero, column.
  rewrite lookup_insert_ne by done.
  rewrite coerce_numeric_lookup by (unfold numeric_columns; repeat constructor).
  destruct (r !! "view") as [c|] eqn:Hc; cbn [fmap option_fmap option_map mbind result_bind].
  - cbn zeta. unfold counter. by rewrite Hc.
  - reflexivity.
Qed.

(** X13. [_preprocess_data] needs the view column and nothing else: on a
    frame without it the function raises [KeyError] (both branches of the
    rate are evaluated), on a frame with it the function returns; and a
    frame that has none of the five weighted counters gets an engagement
    score and an engagement rate of 0. *)
Theorem preprocess_data_requires_view (r : row) :
  (r !! "view" = None -> _preprocess_data parse_number r = Raise KeyError)
  /\ (is_Some (r !! "view") ->
      exists r', _preprocess_data parse_number r = Ok r'
        /\ (r !! "like" = None -> r !! "coin" = None -> r !! "favorite" = None ->
            r !! "share" = None -> r !! "reply" = None ->
            r' !! "engagement_score" = Some (CNum (Q2Qc 0))
            /\ r' !! "engagement_rate" = Some (CNum (Q2Qc 0)))).
Proof.
  rewrite preprocess_data_unfold. split.
  - by intros ->.
  - intros [c Hc]. rewrite Hc. eexists. split; [reflexivity|].
    intros Hl Hco Hf Hs Hr.
    rewrite lookup_insert_ne by done. rewrite !lookup_insert_eq.
    assert (Habs : forall col, r !! col = None -> counter parse_number r col = Q2Qc 0).
    { intros col Hcol. unfold counter. by rewrite Hcol. }
    rewrite (Habs "like" Hl), (Habs "coin" Hco), (Habs "favorite" Hf),
      (Habs "share" Hs), (Habs "reply" Hr).
    assert (Hz : (Q2Qc 0 * Q2Qc 3 + Q2Qc 0 * Q2Qc 5 + Q2Qc 0 * Q2Qc 4
                  + Q2Qc 0 * Q2Qc 6 + Q2Qc 0 * Q2Qc 2)%Qc = Q2Qc 0)
      by (apply Qc_is_canon; reflexivity).
    rewrite Hz. split; [done|]. do 2 f_equal.
    destruct (decide _); [|done].
    unfold Qcdiv. by rewrite !Qcmult_0_l.
Qed.



(** X15. With non-negative likes, coins, favorites, shares and comments
    the engagement score is non-negative, and the engagement rate is
    non-negative whatever the sign of the view count, because a view count
    that is not positive yields the rate 0. *)
Theorem preprocess_data_nonnegative (r : row) :
  is_Some (r !! "view") ->
  Forall (fun col => (Q2Qc 0 <= counter parse_number r col)%Qc)
    ["like"; "coin"; "favorite"; "share"; "reply"] ->
  exists r' score rate,
    _preprocess_data parse_number r = Ok r'
    /\ r' !! "engagement_score" = Some (CNum score)
    /\ r' !! "engagement_rate" = Some (CNum rate)
    /\ (Q2Qc 0 <= score)%Qc /\ (Q2Qc 0 <= rate)%Qc
    /\ ((counter parse_number r "view" <= Q2Qc 0)%Qc -> rate = Q2Qc 0).
Proof.
  intros Hv Hnn.
  destruct (preprocess_data_metrics parse_number r Hv) as (r' & Hr' & Hs & Hrate).
  cbn zeta in Hs, Hrate.
  repeat match goal with
         | H : Forall _ (_ :: _) |- _ =>
             let H1 := fresh "Hc" in apply List.Forall_cons_iff in H as [H1 H]
         end.
  set (score := (counter parse_number r "like" * Q2Qc 3
                 + counter parse_number r "coin" * Q2Qc 5
                 + counter parse_number r "favorite" * Q2Qc 4
                 + counter parse_number r "share" * Q2Qc 6
                 + counter parse_number r "reply" * Q2Qc 2)%Qc) in *.
  assert (Hscore : (Q2Qc 0 <= score)%Qc).
  { unfold score.
    repeat apply Qcplus_nonneg_nonneg; apply Qcmult_nonneg_nonneg; try done;
      vm_compute; discriminate. }
  eexists r', score, _. split; [done|]. split; [done|]. split; [exact Hrate|].
  split; [done|]. split.
  - destruct (decide _) as [Hgt|_]; [|apply Qcle_refl].
    unfold Qcdiv. apply Qcmult_nonneg_nonneg; [|vm_compute; discriminate].
    apply Qcmult_nonneg_nonneg; [done|]. by apply Qclt_le_weak, Qcinv_pos.
  - intros Hle. rewrite decide_False; [done|]. by apply Qcle_not_lt.
Qed.

End PreprocessColumns.

Lemma preprocess_data_nonnegative_witness :
  exists r' score rate,
    _preprocess_data Samples.no_parse Samples.scored_row = Ok r'
    /\ r' !! "engagement_score" = Some (CNum score)
    /\ r' !! "engagement_rate" = Some (CNum rate)
    /\ (Q2Qc 0 <= score)%Qc /\ (Q2Qc 0 <= rate)%Qc
    /\ ((counter Samples.no_parse Samples.scored_row "view" <= Q2Qc 0)%Qc ->
        rate = Q2Qc 0).
Proof.
  apply (preprocess_data_nonnegative Samples.no_parse Samples.scored_row).
  - by eexists.
  - repeat constructor; vm_compute; discriminate.
Defined.


(** ** Sentiment fallbacks *)

(** X16. A title that is blank after stripping, or on which the sentiment
    library raises, is stored as neutral with the score 0.5 whatever the
    configured thresholds; that label is the classification of the stored
    score exactly when the thresholds bracket 0.5 (negative <= 0.5 <=
    positive), as the shipped ones do. *)
Theorem analyze_title_fallback (th : Config.sentiment_threshold)
    (py_strip : string -> string) (snownlp_sentiments : string -> option Qc)
    (title : string) :
  py_strip title = EmptyString \/ snownlp_sentiments title = None ->
  analyze_title th py_strip snownlp_sentiments title = ("neutral", Q2Qc (1 # 2))
  /\ (classify th (Q2Qc (1 # 2)) = "neutral"
      <-> (Config.negative th <= Q2Qc (1 # 2))%Qc
          /\ (Q2Qc (1 # 2) <= Config.positive th)%Qc).
Proof.
  intros Hfb. split.
  - unfold analyze_title. destruct Hfb as [-> | ->]; [done|].
    by destruct (negb _).
  - unfold classify.
    destruct (decide (Config.positive th < Q2Qc (1 # 2))%Qc) as [Hp|Hp].
    + split; [discriminate|]. intros [_ Hle]. by apply Qcle_not_lt in Hle.
    + destruct (decide (Q2Qc (1 # 2) < Config.negative th)%Qc) as [Hn|Hn].
      * split; [discriminate|]. intros [Hle _]. by apply Qcle_not_lt in Hle.
      * split; [|done]. intros _. split; by apply Qcnot_lt_le.
Qed.

Lemma analyze_title_fallback_witness :
  analyze_title (Config.threshold Config.ANALYSIS_CONFIG) Samples.no_strip
    Samples.scores_065 EmptyString
  = ("neutral", Q2Qc (1 # 2))
  /\ (classify (Config.threshold Config.ANALYSIS_CONFIG) (Q2Qc (1 # 2)) = "neutral"
      <-> (Config.negative (Config.threshold Config.ANALYSIS_CONFIG) <= Q2Qc (1 # 2))%Qc
          /\ (Q2Qc (1 # 2)
              <= Config.positive (Config.threshold Config.ANALYSIS_CONFIG))%Qc).
Proof.
  apply (analyze_title_fallback (Config.threshold Config.ANALYSIS_CONFIG)
           Samples.no_strip Samples.scores_065 EmptyString).
  left. reflexivity.
Defined.

(** With a positive threshold of 0.4 an empty title is stored as neutral
    although its stored score classifies as positive. *)
Example analyze_title_fallback_disagrees :
  let th := {| Config.positive := Q2Qc (4 # 10); Config.negative := Q2Qc (-1 # 10) |} in
  (analyze_title th Samples.no_strip Samples.scores_065 EmptyString).1 = "neutral"
  /\ classify th (analyze_title th Samples.no_strip Samples.scores_065 EmptyString).2
     = "positive".
Proof. split; vm_compute; reflexivity. Qed.

(** ** The modes of the command line *)


(** X17. Without the dry-run flag, only the mode [collect] runs: it starts
    the collection and [cli.main] returns. The modes [analyze], [visualize]
    and [full] call methods the class does not define ([analyze_only],
    [visualize_only], and [run_data_collection] from inside
    [run_full_analysis]); each ends with the failure logged and exit status
    1, and no phase is started. *)
Theorem cli_mode_outcomes (a : Cli.args) :
  Cli.dry_run a = false ->
  (Cli.mode a = "collect" ->
     (Cli.main a).2 = Cli.Returns
     /\ filter (fun e => Cli.is_phase e = true) (Cli.main a).1
        = [Cli.Collect (Cli.force_recollect_flag a)])
  /\ (Cli.mode a = "analyze" \/ Cli.mode a = "visualize" \/ Cli.mode a = "full" ->
      (Cli.main a).2 = Cli.SysExit 1
      /\ filter (fun e => Cli.is_phase e = true) (Cli.main a).1 = []
      /\ Cli.LogError "Analysis failed" ∈ (Cli.main a).1).
Proof.
  destruct a as [m f c o v d]. cbn [Cli.dry_run Cli.mode Cli.force_recollect_flag].
  intros ->. split.
  - intros ->. split; reflexivity.
  - intros [-> | [-> | ->]]; destruct v;
      (split; [reflexivity|]); (split; [reflexivity|]);
      apply list_elem_of_In; vm_compute; tauto.
Qed.

Lemma cli_mode_outcomes_witness :
  (Cli.mode Samples.analyze_args = "collect" ->
     (Cli.main Samples.analyze_args).2 = Cli.Returns
     /\ filter (fun e => Cli.is_phase e = true) (Cli.main Samples.analyze_args).1
        = [Cli.Collect (Cli.force_recollect_flag Samples.analyze_args)])
  /\ (Cli.mode Samples.analyze_args = "analyze"
      \/ Cli.mode Samples.analyze_args = "visualize"
      \/ Cli.mode Samples.analyze_args = "full" ->
      (Cli.main Samples.analyze_args).2 = Cli.SysExit 1
      /\ filter (fun e => Cli.is_phase e = true) (Cli.main Samples.analyze_args).1 = []
      /\ Cli.LogError "Analysis failed" ∈ (Cli.main Samples.analyze_args).1).
Proof.
  exact (cli_mode_outcomes Samples.analyze_args eq_refl).
Defined.

(** ** The collection phase as a whole *)

Section CollectOnlyFacts.

Variable py_str : value -> string.
Variable World : Type.
Variable http_search : string -> Z -> World -> http_response * World.
Variable http_detail : value -> World -> http_response * World.
Variable time_now : World -> Z * World.
Variable sleep : Z -> World -> World.

Lemma collect_keywords_have_ids keywords all_data w :
  Forall (fun r => is_Some (row_id r)) all_data ->
  Forall (fun r => is_Some (row_id r))
    (collect_keywords py_str World http_search time_now sleep keywords all_data w).1.
Proof.
  revert all_data w.
  induction keywords as [|keyword rest IH]; intros all_data w Hall; [done|].
  cbn [collect_keywords]. unfold collect_keyword_data.
  pose proof (collect_pages_collected py_str World http_search time_now sleep
                keyword 20 1 [] w (List.Forall_nil _)) as Hpage.
  destruct (collect_pages py_str World http_search time_now sleep keyword 20 1 [] w)
    as [all_videos w1]. cbn [fst] in Hpage.
  destruct (filter_by_date all_videos _ _) as [keyword_data|] eqn:Ef; [|by apply IH].
  apply IH. apply Forall_app. split; [done|].
  apply filter_by_date_loop_filter in Ef. cbn [app] in Ef. subst keyword_data.
  apply list.Forall_forall. intros r [_ Hr]%list_elem_of_filter.
  rewrite list.Forall_forall in Hpage.
  destruct (Hpage r Hr) as (_ & _ & Hf & _).
  unfold field_defaults in Hf. by apply Forall_inv in Hf.
Qed.

(** X18. The collection phase of [main.py]: with an enriched file already
    there and no force flag, [collect_only] returns true at once, without a
    request and without writing. Otherwise, when it writes an enriched
    frame it returns true, and the frame holds pairwise distinct ids, none
    of them empty; when it returns false nothing is written. *)
Theorem collect_only_enriched_frame (cached force_recollect : bool) (w : World) :
  let res := Main.collect_only py_str World http_search http_detail time_now sleep
               cached force_recollect w in
  (cached = true -> force_recollect = false -> res = (true, None, w))
  /\ (res.1.1 = false -> res.1.2 = None)
  /\ (forall rows, res.1.2 = Some rows ->
        res.1.1 = true
        /\ NoDup (row_id <$> rows)
        /\ Forall (fun r => exists v, row_id r = Some v /\ truthy v = true) rows).
Proof.
  cbn zeta. unfold Main.collect_only. split; [by intros -> ->|].
  destruct (cached && negb force_recollect); [by split|].
  unfold collect_all_data.
  pose proof (collect_keywords_have_ids Config.SEARCH_KEYWORDS [] w
                (List.Forall_nil _)) as Hids.
  destruct (collect_keywords py_str World http_search time_now sleep
              Config.SEARCH_KEYWORDS [] w) as [all_data w1]. cbn [fst] in Hids.
  pose proof (drop_duplicates_last_NoDup all_data) as Hnd.
  assert (Hdf : Forall (fun r => is_Some (row_id r)) (drop_duplicates_last all_data)).
  { apply list.Forall_forall. intros r Hr%drop_duplicates_last_subset.
    rewrite list.Forall_forall in Hids. by apply Hids. }
  destruct (drop_duplicates_last all_data) as [|row df] eqn:Edf; [by split|].
  pose proof (enhance_video_data_column World http_detail (row :: df) w1 "bvid") as Hcol.
  destruct (enhance_video_data World http_detail (row :: df) w1) as [enhanced w2].
  cbn [fst snd] in *. split; [done|].
  intros rows [= <-]. split; [done|].
  assert (Hrid : row_id <$> enhanced
                 = row_id <$> filter (fun r => has_id r = true) (row :: df)).
  { apply Hcol. apply (bool_decide_eq_false_1 _). reflexivity. }
  split.
  - rewrite Hrid. eapply sublist_NoDup; [exact Hnd|].
    apply fmap_sublist, sublist_filter.
  - apply list.Forall_forall. intros o Ho.
    assert (Hin : row_id o ∈ row_id <$> enhanced) by (apply list_elem_of_fmap; eauto).
    rewrite Hrid in Hin.
    apply list_elem_of_fmap in Hin as (r & Hro & [Hid Hr]%list_elem_of_filter).
    rewrite list.Forall_forall in Hdf. destruct (Hdf r Hr) as [v Hv].
    exists v. split; [congruence|].
    unfold has_id in Hid. unfold row_id in Hv. by rewrite Hv in Hid.
Qed.

End CollectOnlyFacts.

(** The sample run followed by enrichment: one record, found fifteen
    times, is written once with the view count of its detail. *)
Example collect_only_scenario :
  let res := Main.collect_only Samples.no_str Z Samples.search_service
               (fun bvid w => (Body (VDict [("code", VInt 0);
                                            ("data", VDict [("stat", VDict [("view", VInt 999)])])]),
                               (w + 1)%Z))
               Samples.read_clock Samples.sleep_for false false 1700000000%Z in
  res.1.1 = true
  /\ fmap (M := option) (fmap (M := list) (fun r : dict => (r !! "bvid", r !! "view")))
       res.1.2
     = Some [(Some (VStr "BV1"), Some (VInt 999))].
Proof. vm_compute. split; reflexivity. Qed.
